(** * ServiceNow MCP: service-catalog task tools and the SSE session entry point

    A shallow embedding of [servicenow_mcp/tools/catalog_task_tools.py] and of
    [handle_sse] from [servicenow_mcp/server_sse.py].

    - Python values that travel through the handlers (decoded JSON bodies,
      the dictionaries the handlers build) are the inductive type [value].
    - A Python [dict] is an association list in insertion order; the keys of
      every dictionary met here are strings.
    - Strings are [string] (bytes of the UTF-8 text).  The only place where
      characters are counted is the sys_id test, which accepts ASCII
      characters only, so it gives the same answer on bytes and on code
      points.
    - The remote table API is an oracle that answers each request knowing
      the exchanges that came before; a handler is a computation that
      threads the log of exchanges and either returns or raises. *)

From Stdlib Require Import String Ascii List ZArith Lia Bool DecimalString.
From Stdlib Require Import Floats.SpecFloat.
Import ListNotations.
Open Scope string_scope.

(** ** Python values *)

#[warnings="-register-all"]
Inductive value : Type :=
| PyNone
| PyBool (b : bool)
| PyInt (z : Z)
| PyFloat (f : spec_float)
| PyStr (s : string)
| PyList (l : list value)
| PyDict (d : list (string * value)).

Definition dict := list (string * value).

(** [d.get(k)] on a dictionary, as an option. *)
Fixpoint dict_get (d : dict) (k : string) : option value :=
  match d with
  | [] => None
  | (k', v) :: d' => if String.eqb k' k then Some v else dict_get d' k
  end.

(** [d[k] = v]: replaces the value of a key already there, else appends. *)
Fixpoint dict_set (d : dict) (k : string) (v : value) : dict :=
  match d with
  | [] => [(k, v)]
  | (k', v') :: d' =>
      if String.eqb k' k then (k, v) :: d' else (k', v') :: dict_set d' k v
  end.

Definition keys (d : dict) : list string := map fst d.

(** Python exceptions the handlers can meet.  [RequestException] carries
    [str(e)]. *)
Inductive exn : Type :=
| RequestException (msg : string)
| AttributeError
| TypeError
| KeyError
| IndexError
| UnboundLocalError
| ValidationError.

Inductive outcome (A : Type) : Type :=
| Returned (a : A)
| Raised (e : exn).
Arguments Returned {A} a.
Arguments Raised {A} e.

Definition obind {A B} (c : outcome A) (k : A -> outcome B) : outcome B :=
  match c with
  | Returned a => k a
  | Raised e => Raised e
  end.

Declare Scope py_scope.
Delimit Scope py_scope with py.
Notation "x <~ c ;; k" := (obind c (fun x => k))
  (at level 61, c at next level, right associativity) : py_scope.
Open Scope py_scope.

(** Truth value of an object ([if x:], [not x]). *)
Definition truthy (v : value) : bool :=
  match v with
  | PyNone => false
  | PyBool b => b
  | PyInt z => negb (z =? 0)%Z
  | PyFloat (S754_zero _) => false
  | PyFloat _ => true
  | PyStr s => negb (String.eqb s "")
  | PyList l => match l with [] => false | _ => true end
  | PyDict d => match d with [] => false | _ => true end
  end.

(** Truth value of an [Optional[str]] parameter. *)
Definition str_truthy (o : option string) : bool :=
  match o with
  | Some s => negb (String.eqb s "")
  | None => false
  end.

Definition opt_value (o : option string) : value :=
  match o with
  | Some s => PyStr s
  | None => PyNone
  end.

(** An [Optional[str]] inside an f-string. *)
Definition opt_str (o : option string) : string :=
  match o with
  | Some s => s
  | None => "None"
  end.

Definition isinstance_dict (v : value) : bool :=
  match v with
  | PyDict _ => true
  | _ => false
  end.

(** [v.get(key, default)]: only dictionaries have the method. *)
Definition py_get (v : value) (key : string) (default : value) : outcome value :=
  match v with
  | PyDict d =>
      Returned (match dict_get d key with Some x => x | None => default end)
  | _ => Raised AttributeError
  end.

(** [v[0]]. *)
Definition py_index0 (v : value) : outcome value :=
  match v with
  | PyList (x :: _) => Returned x
  | PyList [] => Raised IndexError
  | PyStr (String c _) => Returned (PyStr (String c EmptyString))
  | PyStr EmptyString => Raised IndexError
  | PyDict _ => Raised KeyError
  | _ => Raised TypeError
  end.

(** The items a [for] loop over [v] visits. *)
Definition py_iter (v : value) : outcome (list value) :=
  match v with
  | PyList l => Returned l
  | PyDict d => Returned (map (fun kv => PyStr (fst kv)) d)
  | PyStr s =>
      Returned (map (fun c => PyStr (String c EmptyString)) (list_ascii_of_string s))
  | _ => Raised TypeError
  end.

(** [l.append(x)] *)
Definition py_append {A} (l : list A) (x : A) : list A := (l ++ [x])%list.

(** A loop whose body may raise: stops at the first exception. *)
Fixpoint for_each {A B} (f : A -> outcome B) (l : list A) : outcome (list B) :=
  match l with
  | [] => Returned []
  | x :: l' =>
      y <~ f x ;;
      ys <~ for_each f l' ;;
      Returned (y :: ys)
  end.

Definition str_of_nat (n : nat) : string :=
  NilZero.string_of_uint (Nat.to_uint n).

Definition str_of_Z (z : Z) : string :=
  NilZero.string_of_int (Z.to_int z).

(** ** The sys_id test

    [len(task_id) == 32 and all(c in "0123456789abcdef" for c in task_id)] *)

Definition hex_digits : string := "0123456789abcdef".

Fixpoint char_in (c : ascii) (s : string) : bool :=
  match s with
  | EmptyString => false
  | String c' s' => Ascii.eqb c c' || char_in c s'
  end.

Fixpoint all_chars (p : ascii -> bool) (s : string) : bool :=
  match s with
  | EmptyString => true
  | String c s' => p c && all_chars p s'
  end.

Definition is_sys_id (task_id : string) : bool :=
  Nat.eqb (String.length task_id) 32
  && all_chars (fun c => char_in c hex_digits) task_id.

(** ** Parameter and response models (pydantic) *)

Record ListCatalogTasksParams := {
  lp_limit : Z;
  lp_offset : Z;
  lp_state : option string;
  lp_assigned_to : option string;
  lp_assignment_group : option string;
  lp_request : option string;
  lp_query : option string
}.

Record GetCatalogTaskParams := {
  gp_task_id : string
}.

Record UpdateCatalogTaskParams := {
  up_task_id : string;
  up_state : option string;
  up_assigned_to : option string;
  up_assignment_group : option string;
  up_work_notes : option string;
  up_close_notes : option string
}.

Record CatalogTaskResponse := {
  success : bool;
  message : string;
  task_id : option string;
  task_number : option string
}.

(** Validation of an [Optional[str]] field: a string or [None] is taken,
    any other object is refused. *)
Definition validate_optional_str (v : value) : outcome (option string) :=
  match v with
  | PyNone => Returned None
  | PyStr s => Returned (Some s)
  | _ => Raised ValidationError
  end.

(** [CatalogTaskResponse(success=..., message=..., task_id=..., task_number=...)] *)
Definition new_CatalogTaskResponse (ok : bool) (msg : string)
    (tid tnum : value) : outcome CatalogTaskResponse :=
  tid' <~ validate_optional_str tid ;;
  tnum' <~ validate_optional_str tnum ;;
  Returned {| success := ok; message := msg; task_id := tid'; task_number := tnum' |}.

(** ** Configuration, requests and the remote *)

Record ServerConfig := {
  api_url : string;
  timeout : Z
}.

Record AuthManager := {
  get_headers : list (string * string)
}.

Inductive method := GET | PUT.

(** One outbound call: [requests.get(url, params=, headers=, timeout=)] or
    [requests.put(url, json=, headers=, timeout=)]. *)
Record request := {
  req_method : method;
  req_url : string;
  req_params : option dict;
  req_json : option dict;
  req_headers : list (string * string);
  req_timeout : Z
}.

(** A response object: [raise_for_status()] raises an [HTTPError] with the
    given text when [http_error] is set.  [json()] gives [json_body], unless
    the body is not JSON: [decode_error] is then set and [json()] raises a
    [JSONDecodeError] with that text, which since [requests] 2.27 is a
    [RequestException]. *)
Record response := {
  http_error : option string;
  decode_error : option string;
  json_body : value
}.

(** What a call comes back with: the call itself raises a
    [RequestException] (connection refused, timeout, ...), or a response
    arrives. *)
Inductive reply :=
| NetworkError (msg : string)
| Responded (r : response).

Definition exchange : Type := request * reply.

(** The remote answers a request knowing the earlier exchanges. *)
Definition remote := list exchange -> request -> reply.

(** A handler computation: reads the remote, extends the log. *)
Definition M (A : Type) : Type := remote -> list exchange -> outcome A * list exchange.

Definition ret {A} (a : A) : M A := fun _ log => (Returned a, log).

Definition bind {A B} (c : M A) (k : A -> M B) : M B :=
  fun rem log =>
    match c rem log with
    | (Returned a, log') => k a rem log'
    | (Raised e, log') => (Raised e, log')
    end.

Definition lift {A} (c : outcome A) : M A := fun _ log => (c, log).

Notation "x <- c ;; k" := (bind c (fun x => k))
  (at level 61, c at next level, right associativity) : py_scope.

(** [try: body except requests.RequestException as e: handler(str(e))] *)
Definition try_except {A} (body : M A) (handler : string -> M A) : M A :=
  fun rem log =>
    match body rem log with
    | (Raised (RequestException msg), log') => handler msg rem log'
    | r => r
    end.

Definition send (req : request) : M response :=
  fun rem log =>
    let rep := rem log req in
    let log' := (log ++ [(req, rep)])%list in
    match rep with
    | NetworkError msg => (Raised (RequestException msg), log')
    | Responded r => (Returned r, log')
    end.

Definition requests_get (url : string) (params : dict)
    (headers : list (string * string)) (tmo : Z) : M response :=
  send {| req_method := GET; req_url := url; req_params := Some params;
          req_json := None; req_headers := headers; req_timeout := tmo |}.

Definition requests_put (url : string) (json : dict)
    (headers : list (string * string)) (tmo : Z) : M response :=
  send {| req_method := PUT; req_url := url; req_params := None;
          req_json := Some json; req_headers := headers; req_timeout := tmo |}.

Definition raise_for_status (r : response) : outcome unit :=
  match http_error r with
  | Some msg => Raised (RequestException msg)
  | None => Returned tt
  end.

Definition response_json (r : response) : outcome value :=
  match decode_error r with
  | Some msg => Raised (RequestException msg)
  | None => Returned (json_body r)
  end.

(** Running a handler from an empty log. *)
Definition run {A} (c : M A) (rem : remote) : outcome A * list exchange :=
  c rem [].

Definition requests_of (log : list exchange) : list request := map fst log.

(** A [return] met before the end of the function body. *)
Inductive flow (R A : Type) : Type :=
| Return (r : R)
| Continue (a : A).
Arguments Return {R A} r.
Arguments Continue {R A} a.

(** ** The three tool handlers *)

Section Handlers.

(** Python's [repr] of a float, a list or a dictionary: the text is fixed
    by the interpreter, not by this repository, and no property below
    depends on it. *)
Variable py_repr : value -> string.

(** An object inside an f-string ([str(v)]). *)
Definition py_str (v : value) : string :=
  match v with
  | PyStr s => s
  | PyNone => "None"
  | PyBool true => "True"
  | PyBool false => "False"
  | PyInt z => str_of_Z z
  | other => py_repr other
  end.

(** The first three steps of every [try] block:
    the call, [raise_for_status()], [json()]. *)
Definition checked_json (call : M response) : M value :=
  resp <- call ;;
  _ <- lift (raise_for_status resp) ;;
  lift (response_json resp).

(** Reference fields arrive as a dictionary or as a plain value. *)
Definition display_value_of (v : value) : outcome value :=
  if isinstance_dict v then py_get v "display_value" PyNone else Returned v.

(** [task_data.get("request", {}).get("value")
      if isinstance(task_data.get("request"), dict)
      else task_data.get("request")] *)
Definition request_sys_id_of (task_data : value) : outcome value :=
  probe <~ py_get task_data "request" PyNone ;;
  if isinstance_dict probe then
    r <~ py_get task_data "request" (PyDict []) ;;
    py_get r "value" PyNone
  else py_get task_data "request" PyNone.

(** Body of the loop of [list_catalog_tasks]. *)
Definition list_task (task_data : value) : outcome value :=
  assigned_to <~ py_get task_data "assigned_to" PyNone ;;
  assigned_to <~ display_value_of assigned_to ;;
  assignment_group <~ py_get task_data "assignment_group" PyNone ;;
  assignment_group <~ display_value_of assignment_group ;;
  request_ref <~ py_get task_data "request" PyNone ;;
  request_ref <~ display_value_of request_ref ;;
  sys_id <~ py_get task_data "sys_id" PyNone ;;
  number <~ py_get task_data "number" PyNone ;;
  short_description <~ py_get task_data "short_description" PyNone ;;
  description <~ py_get task_data "description" PyNone ;;
  state <~ py_get task_data "state" PyNone ;;
  request_sys_id <~ request_sys_id_of task_data ;;
  created_on <~ py_get task_data "sys_created_on" PyNone ;;
  updated_on <~ py_get task_data "sys_updated_on" PyNone ;;
  due_date <~ py_get task_data "due_date" PyNone ;;
  priority <~ py_get task_data "priority" PyNone ;;
  Returned (PyDict [
    ("sys_id", sys_id);
    ("number", number);
    ("short_description", short_description);
    ("description", description);
    ("state", state);
    ("assigned_to", assigned_to);
    ("assignment_group", assignment_group);
    ("request", request_ref);
    ("request_sys_id", request_sys_id);
    ("created_on", created_on);
    ("updated_on", updated_on);
    ("due_date", due_date);
    ("priority", priority)
  ]).

(** The [filters] list of [list_catalog_tasks]. *)
Definition list_filters (params : ListCatalogTasksParams) : list string :=
  let filters : list string := [] in
  let filters :=
    if str_truthy (lp_state params)
    then py_append filters ("state=" ++ opt_str (lp_state params))
    else filters in
  let filters :=
    if str_truthy (lp_assigned_to params)
    then py_append filters ("assigned_to=" ++ opt_str (lp_assigned_to params))
    else filters in
  let filters :=
    if str_truthy (lp_assignment_group params)
    then py_append filters ("assignment_group=" ++ opt_str (lp_assignment_group params))
    else filters in
  let filters :=
    if str_truthy (lp_request params)
    then py_append filters ("request=" ++ opt_str (lp_request params))
    else filters in
  let filters :=
    if str_truthy (lp_query params)
    then py_append filters ("short_descriptionLIKE" ++ opt_str (lp_query params)
                      ++ "^ORdescriptionLIKE" ++ opt_str (lp_query params))
    else filters in
  filters.

(** The [query_params] dictionary of [list_catalog_tasks]. *)
Definition list_query_params (params : ListCatalogTasksParams) : dict :=
  let query_params : dict := [
    ("sysparm_limit", PyInt (lp_limit params));
    ("sysparm_offset", PyInt (lp_offset params));
    ("sysparm_display_value", PyStr "true");
    ("sysparm_exclude_reference_link", PyStr "true")
  ] in
  let filters := list_filters params in
  match filters with
  | [] => query_params
  | _ => dict_set query_params "sysparm_query" (PyStr (String.concat "^" filters))
  end.

(** What [list_catalog_tasks] does with the decoded body. *)
Definition list_tasks_of (data : value) : outcome value :=
  result <~ py_get data "result" (PyList []) ;;
  items <~ py_iter result ;;
  tasks <~ for_each list_task items ;;
  Returned (PyDict [
    ("success", PyBool true);
    ("message", PyStr ("Found " ++ str_of_nat (List.length tasks) ++ " catalog tasks"));
    ("tasks", PyList tasks)
  ]).

Definition list_catalog_tasks (config : ServerConfig) (auth_manager : AuthManager)
    (params : ListCatalogTasksParams) : M value :=
  let url := api_url config ++ "/table/sc_task" in
  let query_params := list_query_params params in
  try_except
    (data <- checked_json
       (requests_get url query_params (get_headers auth_manager) (timeout config)) ;;
     lift (list_tasks_of data))
    (fun e =>
     ret (PyDict [
       ("success", PyBool false);
       ("message", PyStr ("Failed to list catalog tasks: " ++ e));
       ("tasks", PyList [])
     ])).

(** The task dictionary built by [get_catalog_task]. *)
Definition get_task (task_data : value) : outcome value :=
  assigned_to <~ py_get task_data "assigned_to" PyNone ;;
  assigned_to <~ display_value_of assigned_to ;;
  assignment_group <~ py_get task_data "assignment_group" PyNone ;;
  assignment_group <~ display_value_of assignment_group ;;
  request_ref <~ py_get task_data "request" PyNone ;;
  request_ref <~ display_value_of request_ref ;;
  sys_id <~ py_get task_data "sys_id" PyNone ;;
  number <~ py_get task_data "number" PyNone ;;
  short_description <~ py_get task_data "short_description" PyNone ;;
  description <~ py_get task_data "description" PyNone ;;
  state <~ py_get task_data "state" PyNone ;;
  request_sys_id <~ request_sys_id_of task_data ;;
  created_on <~ py_get task_data "sys_created_on" PyNone ;;
  updated_on <~ py_get task_data "sys_updated_on" PyNone ;;
  due_date <~ py_get task_data "due_date" PyNone ;;
  priority <~ py_get task_data "priority" PyNone ;;
  work_notes <~ py_get task_data "work_notes" PyNone ;;
  close_notes <~ py_get task_data "close_notes" PyNone ;;
  Returned (PyDict [
    ("sys_id", sys_id);
    ("number", number);
    ("short_description", short_description);
    ("description", description);
    ("state", state);
    ("assigned_to", assigned_to);
    ("assignment_group", assignment_group);
    ("request", request_ref);
    ("request_sys_id", request_sys_id);
    ("created_on", created_on);
    ("updated_on", updated_on);
    ("due_date", due_date);
    ("priority", priority);
    ("work_notes", work_notes);
    ("close_notes", close_notes)
  ]).

Definition not_found_dict (task_id : string) : value :=
  PyDict [
    ("success", PyBool false);
    ("message", PyStr ("Catalog task not found: " ++ task_id))
  ].

Definition fetch_failed_dict (e : string) : value :=
  PyDict [
    ("success", PyBool false);
    ("message", PyStr ("Failed to fetch catalog task: " ++ e))
  ].

(** What the first block of [get_catalog_task] does with the decoded body
    of the query by number. *)
Definition first_row_of (task_id url : string) (data : value)
  : outcome (flow value (string * option value)) :=
  result <~ py_get data "result" (PyList []) ;;
  if negb (truthy result) then Returned (Return (not_found_dict task_id))
  else
    task_data <~ py_index0 result ;;
    Returned (Continue (url, Some task_data)).

(** What the second block does with the decoded body of the direct fetch. *)
Definition record_of (task_id : string) (data : value)
  : outcome (flow value (option value)) :=
  task_data <~ py_get data "result" (PyDict []) ;;
  if negb (truthy task_data) then Returned (Return (not_found_dict task_id))
  else Returned (Continue (Some task_data)).

(** First block of [get_catalog_task]: a number is resolved by a query.
    The block leaves [api_url] and, on the number path, [task_data]. *)
Definition get_by_number (config : ServerConfig) (auth_manager : AuthManager)
    (task_id : string) : M (flow value (string * option value)) :=
  if is_sys_id task_id then
    ret (Continue (api_url config ++ "/table/sc_task/" ++ task_id, None))
  else
    let url := api_url config ++ "/table/sc_task" in
    let query_params : dict := [
      ("sysparm_query", PyStr ("number=" ++ task_id));
      ("sysparm_limit", PyInt 1);
      ("sysparm_display_value", PyStr "true");
      ("sysparm_exclude_reference_link", PyStr "true")
    ] in
    try_except
      (data <- checked_json
         (requests_get url query_params (get_headers auth_manager) (timeout config)) ;;
       lift (first_row_of task_id url data))
      (fun e => ret (Return (fetch_failed_dict e))).

(** Second block of [get_catalog_task]: a sys_id is fetched directly. *)
Definition get_by_sys_id (config : ServerConfig) (auth_manager : AuthManager)
    (task_id : string) (url : string) (task_data : option value)
  : M (flow value (option value)) :=
  if is_sys_id task_id then
    try_except
      (data <- checked_json
         (requests_get url
            [("sysparm_display_value", PyStr "true");
             ("sysparm_exclude_reference_link", PyStr "true")]
            (get_headers auth_manager) (timeout config)) ;;
       lift (record_of task_id data))
      (fun e => ret (Return (fetch_failed_dict e)))
  else ret (Continue task_data).

(** Last part of [get_catalog_task]; [task_data] is bound on every path
    that reaches it. *)
Definition get_found (task_id : string) (task_data : value) : outcome value :=
  task <~ get_task task_data ;;
  number <~ py_get task_data "number" (PyStr task_id) ;;
  Returned (PyDict [
    ("success", PyBool true);
    ("message", PyStr ("Catalog task " ++ py_str number ++ " found"));
    ("task", task)
  ]).

Definition get_catalog_task (config : ServerConfig) (auth_manager : AuthManager)
    (params : GetCatalogTaskParams) : M value :=
  let task_id := gp_task_id params in
  first <- get_by_number config auth_manager task_id ;;
  match first with
  | Return r => ret r
  | Continue (url, task_data) =>
      second <- get_by_sys_id config auth_manager task_id url task_data ;;
      match second with
      | Return r => ret r
      | Continue (Some task_data) => lift (get_found task_id task_data)
      | Continue None => lift (Raised UnboundLocalError)
      end
  end.

Definition failed_response (msg : string) : outcome CatalogTaskResponse :=
  new_CatalogTaskResponse false msg PyNone PyNone.

(** What the first block of [update_catalog_task] does with the decoded
    body of the query by number. *)
Definition resolved_url_of (config : ServerConfig) (task_id : string)
    (data : value) : outcome (flow CatalogTaskResponse string) :=
  result <~ py_get data "result" (PyList []) ;;
  if negb (truthy result) then
    r <~ failed_response ("Catalog task not found: " ++ task_id) ;;
    Returned (Return r)
  else
    first <~ py_index0 result ;;
    task_id <~ py_get first "sys_id" PyNone ;;
    Returned (Continue (api_url config ++ "/table/sc_task/" ++ py_str task_id)).

(** What the last block does with the decoded body of the PUT. *)
Definition updated_of (body : value) : outcome CatalogTaskResponse :=
  result <~ py_get body "result" (PyDict []) ;;
  sys_id <~ py_get result "sys_id" PyNone ;;
  number <~ py_get result "number" PyNone ;;
  new_CatalogTaskResponse true "Catalog task updated successfully" sys_id number.

(** First block of [update_catalog_task]: leaves the [api_url] the PUT
    goes to, or returns early. *)
Definition resolve_task_url (config : ServerConfig) (auth_manager : AuthManager)
    (task_id : string) : M (flow CatalogTaskResponse string) :=
  if is_sys_id task_id then
    ret (Continue (api_url config ++ "/table/sc_task/" ++ task_id))
  else
    try_except
      (let query_url := api_url config ++ "/table/sc_task" in
       let query_params : dict := [
         ("sysparm_query", PyStr ("number=" ++ task_id));
         ("sysparm_limit", PyInt 1)
       ] in
       data <- checked_json
         (requests_get query_url query_params (get_headers auth_manager) (timeout config)) ;;
       lift (resolved_url_of config task_id data))
      (fun e =>
       lift (r <~ failed_response ("Failed to find catalog task: " ++ e) ;;
             Returned (Return r))).

(** The [data] dictionary sent by [update_catalog_task]. *)
Definition update_data (params : UpdateCatalogTaskParams) : dict :=
  let data : dict := [] in
  let data :=
    if str_truthy (up_state params)
    then dict_set data "state" (opt_value (up_state params)) else data in
  let data :=
    if str_truthy (up_assigned_to params)
    then dict_set data "assigned_to" (opt_value (up_assigned_to params)) else data in
  let data :=
    if str_truthy (up_assignment_group params)
    then dict_set data "assignment_group" (opt_value (up_assignment_group params))
    else data in
  let data :=
    if str_truthy (up_work_notes params)
    then dict_set data "work_notes" (opt_value (up_work_notes params)) else data in
  let data :=
    if str_truthy (up_close_notes params)
    then dict_set data "close_notes" (opt_value (up_close_notes params)) else data in
  data.

Definition update_catalog_task (config : ServerConfig) (auth_manager : AuthManager)
    (params : UpdateCatalogTaskParams) : M CatalogTaskResponse :=
  let task_id := up_task_id params in
  first <- resolve_task_url config auth_manager task_id ;;
  match first with
  | Return r => ret r
  | Continue url =>
      let data := update_data params in
      try_except
        (body <- checked_json
           (requests_put url data (get_headers auth_manager) (timeout config)) ;;
         lift (updated_of body))
        (fun e => lift (failed_response ("Failed to update catalog task: " ++ e)))
  end.

End Handlers.

(** ** The SSE session entry point ([server_sse.py]) *)

Module ServerSse.

(** The inbound request, seen through [request.headers.get]. *)
Record Request := {
  headers_get : string -> option string
}.

Record JSONResponse := {
  content : dict;
  status_code : Z
}.

(** What [handle_sse] does besides answering: it builds the per-session
    MCP instance, opens the event stream and runs the protocol server. *)
Inductive effect :=
| CreateMcpInstance (instance_url username password : option string)
| ConnectSse
| RunMcpServer.

(** [all([a, b, c])] over header values. *)
Definition py_all (l : list (option string)) : bool := forallb str_truthy l.

Definition handle_sse (request : Request) : option JSONResponse * list effect :=
  let instance_url := headers_get request "X-ServiceNow-Instance-URL" in
  let username := headers_get request "X-ServiceNow-Username" in
  let password := headers_get request "X-ServiceNow-Password" in
  if negb (py_all [instance_url; username; password]) then
    (Some {| content := [("error", PyStr "Missing required headers for ServiceNow connection")];
             status_code := 400 |},
     [])
  else
    (None, [CreateMcpInstance instance_url username password; ConnectSse; RunMcpServer]).

Definition creates_instance (e : effect) : bool :=
  match e with
  | CreateMcpInstance _ _ _ => true
  | _ => false
  end.

End ServerSse.

(** * Sample data, from the repository's tests *)

Definition test_config : ServerConfig :=
  {| api_url := "https://test.service-now.com/api/now"; timeout := 30 |}.

Definition test_auth : AuthManager :=
  {| get_headers := [("Authorization", "Bearer test_token")] |}.

Definition ok_response (body : value) : reply :=
  Responded {| http_error := None; decode_error := None; json_body := body |}.

(** [test_update_catalog_task_by_number] *)
Definition test_update_params : UpdateCatalogTaskParams :=
  {| up_task_id := "SCTASK0001639213";
     up_state := Some "3";
     up_assigned_to := None;
     up_assignment_group := None;
     up_work_notes := Some "Updated notes";
     up_close_notes := None |}.

Definition test_update_remote : remote :=
  fun _ req =>
    match req_method req with
    | GET => ok_response (PyDict [("result", PyList [PyDict [("sys_id", PyStr "task123")]])])
    | PUT => ok_response (PyDict [("result", PyDict [
               ("sys_id", PyStr "task123");
               ("number", PyStr "SCTASK0001639213")])])
    end.

(** [test_get_catalog_task_not_found]: the query by number finds no row. *)
Definition not_found_remote : remote :=
  fun _ _ => ok_response (PyDict [("result", PyList [])]).

Definition failing_remote : remote :=
  fun _ _ => NetworkError "connection refused".

Definition sample_sys_id : string := "0123456789abcdef0123456789abcdef".

Definition sample_list_params : ListCatalogTasksParams :=
  {| lp_limit := 10;
     lp_offset := 0;
     lp_state := Some "2";
     lp_assigned_to := None;
     lp_assignment_group := Some "";
     lp_request := None;
     lp_query := Some "vpn" |}.

Definition sample_record : dict := [
  ("sys_id", PyStr "task123");
  ("number", PyStr "SCTASK0001639213");
  ("short_description", PyStr "Test Task");
  ("assigned_to", PyDict [("display_value", PyStr "Abel Tuter"); ("value", PyStr "user123")]);
  ("assignment_group", PyStr "group123");
  ("request", PyDict [("display_value", PyStr "REQ123"); ("value", PyStr "req456")]);
  ("u_custom", PyInt 7)
].

Definition sample_rows_remote : remote :=
  fun _ _ => ok_response (PyDict [("result", PyList [PyDict sample_record])]).

Definition sample_record_remote : remote :=
  fun _ _ => ok_response (PyDict [("result", PyDict sample_record)]).

Definition sample_get_params : GetCatalogTaskParams :=
  {| gp_task_id := "SCTASK0001639213" |}.

Definition request_without_password : ServerSse.Request :=
  {| ServerSse.headers_get := fun name =>
       if String.eqb name "X-ServiceNow-Instance-URL"
       then Some "https://test.service-now.com"
       else if String.eqb name "X-ServiceNow-Username" then Some "admin"
       else None |}.

Definition request_with_credentials : ServerSse.Request :=
  {| ServerSse.headers_get := fun name =>
       if String.eqb name "X-ServiceNow-Instance-URL"
       then Some "https://test.service-now.com"
       else if String.eqb name "X-ServiceNow-Username" then Some "admin"
       else if String.eqb name "X-ServiceNow-Password" then Some "secret"
       else None |}.

(** [test_list_catalog_tasks_success]: no filter is given. *)
Definition test_list_params : ListCatalogTasksParams :=
  {| lp_limit := 10;
     lp_offset := 0;
     lp_state := None;
     lp_assigned_to := None;
     lp_assignment_group := None;
     lp_request := None;
     lp_query := None |}.

Definition sample_sys_id_update : UpdateCatalogTaskParams :=
  {| up_task_id := sample_sys_id;
     up_state := Some "3";
     up_assigned_to := None;
     up_assignment_group := None;
     up_work_notes := Some "";
     up_close_notes := None |}.

(** The record of [test_list_catalog_tasks_success]. *)
Definition test_record : dict := [
  ("sys_id", PyStr "task123");
  ("number", PyStr "SCTASK0001639213");
  ("short_description", PyStr "Test Task");
  ("description", PyStr "Test Description");
  ("state", PyStr "2");
  ("assigned_to", PyStr "user123");
  ("assignment_group", PyStr "group123");
  ("request", PyStr "REQ123");
  ("sys_created_on", PyStr "2023-01-01 12:00:00");
  ("sys_updated_on", PyStr "2023-01-01 13:00:00");
  ("due_date", PyStr "2023-01-02 12:00:00");
  ("priority", PyStr "3")
].

Definition test_list_remote : remote :=
  fun _ _ => ok_response (PyDict [("result", PyList [PyDict test_record])]).

(** A reply in which the second row is a string, not a record. *)
Definition bad_row_remote : remote :=
  fun _ _ => ok_response (PyDict [("result",
               PyList [PyDict test_record; PyStr "oops"])]).

Definition null_result_remote : remote :=
  fun _ _ => ok_response (PyDict [("result", PyNone)]).

Definition no_result_remote : remote :=
  fun _ _ => ok_response (PyDict []).

(** The resolution finds a row that carries no [sys_id]. *)
Definition row_without_sys_id_remote : remote :=
  fun _ req =>
    match req_method req with
    | GET => ok_response (PyDict [("result",
               PyList [PyDict [("number", PyStr "SCTASK0001639213")]])])
    | PUT => ok_response (PyDict [("result", PyDict [])])
    end.

(** The resolution succeeds, the PUT is refused. *)
Definition put_refused_remote : remote :=
  fun _ req =>
    match req_method req with
    | GET => ok_response (PyDict [("result", PyList [PyDict [("sys_id", PyStr "task123")]])])
    | PUT => Responded {| http_error := Some "403 Client Error: Forbidden";
                          decode_error := None;
                          json_body := PyNone |}
    end.

Definition empty_update_params : UpdateCatalogTaskParams :=
  {| up_task_id := sample_sys_id;
     up_state := None;
     up_assigned_to := Some "";
     up_assignment_group := None;
     up_work_notes := None;
     up_close_notes := None |}.

Definition request_with_blank_username : ServerSse.Request :=
  {| ServerSse.headers_get := fun name =>
       if String.eqb name "X-ServiceNow-Instance-URL"
       then Some "https://test.service-now.com"
       else if String.eqb name "X-ServiceNow-Username" then Some ""
       else if String.eqb name "X-ServiceNow-Password" then Some "secret"
       else None |}.

(** A 200 reply whose body is an HTML page. *)
Definition not_json_remote : remote :=
  fun _ _ => Responded {| http_error := None;
                          decode_error := Some "Expecting value: line 1 column 1 (char 0)";
                          json_body := PyNone |}.

(** A stand-in for the interpreter's [repr]; the sample runs never call it. *)
Definition repr_unused : value -> string := fun _ => "".

(** * Auxiliary definitions used to state the properties *)

(** [d.get(k)] with the default [None]. *)
Definition field (d : dict) (k : string) : value :=
  match dict_get d k with
  | Some x => x
  | None => PyNone
  end.

(** What a reference field becomes: the display value of an object, the
    value itself otherwise. *)
Definition ref_display (v : value) : value :=
  match v with
  | PyDict o => field o "display_value"
  | _ => v
  end.

Definition ref_value (v : value) : value :=
  match v with
  | PyDict o => field o "value"
  | _ => v
  end.

(** What the three steps call / [raise_for_status] / [json] make of a reply. *)
Definition reply_json (rep : reply) : outcome value :=
  match rep with
  | NetworkError msg => Raised (RequestException msg)
  | Responded r =>
      match http_error r with
      | Some msg => Raised (RequestException msg)
      | None => response_json r
      end
  end.

(** The error text of a failed call, if the call failed. *)
Definition failure_of (rep : reply) : option string :=
  match rep with
  | NetworkError msg => Some msg
  | Responded r => http_error r
  end.

Definition is_request_exn {A} (o : outcome A) : bool :=
  match o with
  | Raised (RequestException _) => true
  | _ => false
  end.

Definition hex_char (c : ascii) : Prop :=
  In c (list_ascii_of_string hex_digits).

(** The shape a task identifier must have to be taken for a sys_id. *)
Definition sys_id_shaped (s : string) : Prop :=
  String.length s = 32 /\ Forall hex_char (list_ascii_of_string s).

(** A request for one record: [<api_url>/table/sc_task/<task_id>]. *)
Definition single_record_request (config : ServerConfig) (m : method)
    (tid : string) (req : request) : Prop :=
  req_method req = m /\
  req_url req = api_url config ++ "/table/sc_task/" ++ tid.

(** A query of the table by number, limited to one row. *)
Definition number_query (config : ServerConfig) (tid : string)
    (req : request) : Prop :=
  req_method req = GET /\
  req_url req = api_url config ++ "/table/sc_task" /\
  exists qp, req_params req = Some qp /\
    dict_get qp "sysparm_query" = Some (PyStr ("number=" ++ tid)) /\
    dict_get qp "sysparm_limit" = Some (PyInt 1).

Definition populated (o : option string) : Prop :=
  exists s, o = Some s /\ s <> "".

Definition list_task_keys : list string :=
  ["sys_id"; "number"; "short_description"; "description"; "state";
   "assigned_to"; "assignment_group"; "request"; "request_sys_id";
   "created_on"; "updated_on"; "due_date"; "priority"].

Definition get_task_keys : list string :=
  (list_task_keys ++ ["work_notes"; "close_notes"])%list.

(** The field of the remote record a key of the normalized task is read from. *)
Definition source_key (k : string) : string :=
  if String.eqb k "request_sys_id" then "request"
  else if String.eqb k "created_on" then "sys_created_on"
  else if String.eqb k "updated_on" then "sys_updated_on"
  else k.

Definition reference_fields : list string :=
  ["assigned_to"; "assignment_group"; "request"].

(** The parameter of [update_catalog_task] that feeds a body field. *)
Definition update_param (p : UpdateCatalogTaskParams) (f : string)
  : option string :=
  if String.eqb "state" f then up_state p
  else if String.eqb "assigned_to" f then up_assigned_to p
  else if String.eqb "assignment_group" f then up_assignment_group p
  else if String.eqb "work_notes" f then up_work_notes p
  else if String.eqb "close_notes" f then up_close_notes p
  else None.

(** The requests the handlers build. *)
Definition list_request (config : ServerConfig) (auth_manager : AuthManager)
    (params : ListCatalogTasksParams) : request :=
  {| req_method := GET;
     req_url := api_url config ++ "/table/sc_task";
     req_params := Some (list_query_params params);
     req_json := None;
     req_headers := get_headers auth_manager;
     req_timeout := timeout config |}.

Definition get_number_request (config : ServerConfig) (auth_manager : AuthManager)
    (tid : string) : request :=
  {| req_method := GET;
     req_url := api_url config ++ "/table/sc_task";
     req_params := Some [
       ("sysparm_query", PyStr ("number=" ++ tid));
       ("sysparm_limit", PyInt 1);
       ("sysparm_display_value", PyStr "true");
       ("sysparm_exclude_reference_link", PyStr "true")];
     req_json := None;
     req_headers := get_headers auth_manager;
     req_timeout := timeout config |}.

Definition get_record_request (config : ServerConfig) (auth_manager : AuthManager)
    (tid : string) : request :=
  {| req_method := GET;
     req_url := api_url config ++ "/table/sc_task/" ++ tid;
     req_params := Some [
       ("sysparm_display_value", PyStr "true");
       ("sysparm_exclude_reference_link", PyStr "true")];
     req_json := None;
     req_headers := get_headers auth_manager;
     req_timeout := timeout config |}.

Definition update_number_request (config : ServerConfig) (auth_manager : AuthManager)
    (tid : string) : request :=
  {| req_method := GET;
     req_url := api_url config ++ "/table/sc_task";
     req_params := Some [
       ("sysparm_query", PyStr ("number=" ++ tid));
       ("sysparm_limit", PyInt 1)];
     req_json := None;
     req_headers := get_headers auth_manager;
     req_timeout := timeout config |}.

Definition put_request (config : ServerConfig) (auth_manager : AuthManager)
    (url : string) (params : UpdateCatalogTaskParams) : request :=
  {| req_method := PUT;
     req_url := url;
     req_params := None;
     req_json := Some (update_data params);
     req_headers := get_headers auth_manager;
     req_timeout := timeout config |}.

Definition list_failed_dict (e : string) : value :=
  PyDict [
    ("success", PyBool false);
    ("message", PyStr ("Failed to list catalog tasks: " ++ e));
    ("tasks", PyList [])
  ].

Definition failed (msg : string) : CatalogTaskResponse :=
  {| success := false; message := msg; task_id := None; task_number := None |}.

(** What each handler makes of the reply to its call. *)
Definition list_outcome (rep : reply) : outcome value :=
  match reply_json rep with
  | Raised (RequestException m) => Returned (list_failed_dict m)
  | Raised e => Raised e
  | Returned data => list_tasks_of data
  end.

Definition finish_get (py_repr : value -> string) (tid : string)
    (r : flow value (option value)) : outcome value :=
  match r with
  | Return x => Returned x
  | Continue (Some task_data) => get_found py_repr tid task_data
  | Continue None => Raised UnboundLocalError
  end.

Definition get_outcome (py_repr : value -> string) (config : ServerConfig)
    (tid : string) (rep : reply) : outcome value :=
  match reply_json rep with
  | Raised (RequestException m) => Returned (fetch_failed_dict m)
  | Raised e => Raised e
  | Returned data =>
      if is_sys_id tid then r <~ record_of tid data ;; finish_get py_repr tid r
      else
        r <~ first_row_of tid (api_url config ++ "/table/sc_task") data ;;
        match r with
        | Return x => Returned x
        | Continue (_, task_data) => finish_get py_repr tid (Continue task_data)
        end
  end.

Definition put_outcome (rep : reply) : outcome CatalogTaskResponse :=
  match reply_json rep with
  | Raised (RequestException m) =>
      Returned (failed ("Failed to update catalog task: " ++ m))
  | Raised e => Raised e
  | Returned body => updated_of body
  end.

(** The first request of a run goes to the single-record endpoint when the
    identifier has the sys_id shape, and is a query by number otherwise. *)
Definition routes_by_shape (config : ServerConfig) (m : method) (tid : string)
    (log : list exchange) : Prop :=
  exists req rest,
    requests_of log = req :: rest /\
    (sys_id_shaped tid -> single_record_request config m tid req) /\
    (~ sys_id_shaped tid -> number_query config tid req).

(** The PUT of an update by number goes to the record whose sys_id the
    first row of the resolution reply carries. *)
Definition put_to_resolved (py_repr : value -> string) (config : ServerConfig)
    (rg : reply) (pu : request) : Prop :=
  exists data result first sid,
    reply_json rg = Returned data /\
    py_get data "result" (PyList []) = Returned result /\
    py_index0 result = Returned first /\
    py_get first "sys_id" PyNone = Returned sid /\
    single_record_request config PUT (py_str py_repr sid) pu.

Definition methods_of (log : list exchange) : list method :=
  map req_method (requests_of log).

(** A filter field contributes its one predicate when populated (a
    non-empty string) and nothing when it is [None] or empty. *)
Definition one_predicate (o : option string) (pred : string -> string)
    (f : list string) : Prop :=
  (forall s, o = Some s -> s <> "" -> f = [pred s]) /\
  (~ populated o -> f = []).

Definition filter_of (o : option string) (pred : string -> string) : list string :=
  if str_truthy o then [pred (opt_str o)] else [].

Definition state_predicate (s : string) : string := "state=" ++ s.
Definition assigned_to_predicate (s : string) : string := "assigned_to=" ++ s.
Definition assignment_group_predicate (s : string) : string :=
  "assignment_group=" ++ s.
Definition request_predicate (s : string) : string := "request=" ++ s.
Definition query_predicate (s : string) : string :=
  "short_descriptionLIKE" ++ s ++ "^ORdescriptionLIKE" ++ s.

(** A reference field of a record and of its normalized task: an object
    gives its display value, any other value is passed through. *)
Definition normalized_reference (rec task : dict) (f : string) : Prop :=
  (forall o, dict_get rec f = Some (PyDict o) ->
             dict_get task f = Some (field o "display_value")) /\
  (forall v, dict_get rec f = Some v -> isinstance_dict v = false ->
             dict_get task f = Some v).

Definition normalized_references (rec task : dict) : Prop :=
  forall f, In f reference_fields -> normalized_reference rec task f.

(** The record a successful reply to [get_catalog_task] carries: the
    [result] object of a direct fetch, the first row of a query by number. *)
Definition fetched_record (tid : string) (body : value) (rec : dict) : Prop :=
  if is_sys_id tid
  then py_get body "result" (PyDict []) = Returned (PyDict rec) /\ rec <> []
  else exists rest,
         py_get body "result" (PyList []) = Returned (PyList (PyDict rec :: rest)).






(** A header value that [all([...])] takes for absent: missing, or empty. *)
Definition header_unusable (request : ServerSse.Request) (name : string) : Prop :=
  ServerSse.headers_get request name = None \/
  ServerSse.headers_get request name = Some "".

Definition missing_headers_response : ServerSse.JSONResponse :=
  {| ServerSse.content :=
       [("error", PyStr "Missing required headers for ServiceNow connection")];
     ServerSse.status_code := 400 |}.

(** What every outbound request has in common. *)
Definition request_well_formed (config : ServerConfig) (auth_manager : AuthManager)
    (req : request) : Prop :=
  req_headers req = get_headers auth_manager /\
  req_timeout req = timeout config /\
  match req_method req with
  | GET =>
      (req_url req = api_url config ++ "/table/sc_task" \/
       exists id, req_url req = api_url config ++ "/table/sc_task/" ++ id) /\
      req_json req = None /\ req_params req <> None
  | PUT =>
      (exists id, req_url req = api_url config ++ "/table/sc_task/" ++ id) /\
      req_params req = None /\ req_json req <> None
  end.

(** The keys of a normalized task that are plain copies of a record field. *)
Definition plain_keys : list string :=
  ["sys_id"; "number"; "short_description"; "description"; "state";
   "created_on"; "updated_on"; "due_date"; "priority"].

Definition copies_plain_fields (rec task : dict) : Prop :=
  forall k, In k plain_keys -> dict_get task k = Some (field rec (source_key k)).

Definition unpopulated (o : option string) : Prop := o = None \/ o = Some "".

(** What [get_catalog_task] holds as [task_data] once the reply is decoded
    and found non-empty. *)
Definition fetched_value (tid : string) (body td : value) : Prop :=
  if is_sys_id tid
  then py_get body "result" (PyDict []) = Returned td /\ truthy td = true
  else exists result,
         py_get body "result" (PyList []) = Returned result /\
         truthy result = true /\ py_index0 result = Returned td.

(** A normalized task against the record it was built from: it has
    exactly the given keys, and a key whose field the record lacks holds
    [None]. *)
Definition normalized_keys (ks : list string) (rec task : dict) : Prop :=
  keys task = ks /\
  forall k, In k ks -> dict_get rec (source_key k) = None ->
            dict_get task k = Some PyNone.

(** Case analysis on what a reply decodes to. *)
Ltac case_reply :=
  match goal with
  | |- context [reply_json ?x] =>
      let v := fresh "v" in destruct (reply_json x) as [v|[]]; try reflexivity
  end.

(** * Basic facts about the Python layer *)

Lemma str_truthy_populated o : str_truthy o = true <-> populated o.
Proof.
  unfold populated. destruct o as [s|]; simpl.
  - destruct (String.eqb_spec s ""); simpl; split.
    + discriminate.
    + intros (s' & E & N). injection E as <-. contradiction.
    + intros _. exists s. split; [reflexivity | assumption].
    + reflexivity.
  - split; [discriminate | intros (s & E & _); discriminate].
Qed.

Lemma str_truthy_false o :
  str_truthy o = false <-> o = None \/ o = Some "".
Proof.
  destruct o as [s|]; simpl.
  - destruct (String.eqb_spec s ""); simpl; split; intros H.
    + right. now subst.
    + reflexivity.
    + discriminate.
    + destruct H as [H|H]; [discriminate | injection H as ->; contradiction].
  - split; [now left | reflexivity].
Qed.

Lemma char_in_In c s : char_in c s = true <-> In c (list_ascii_of_string s).
Proof.
  induction s as [|c' s IH]; simpl.
  - split; [discriminate | contradiction].
  - rewrite orb_true_iff, IH. split; intros [H|H]; auto.
    + left. symmetry. now apply Ascii.eqb_eq.
    + left. apply Ascii.eqb_eq. now symmetry.
Qed.

Lemma all_chars_Forall p s :
  all_chars p s = true <-> Forall (fun c => p c = true) (list_ascii_of_string s).
Proof.
  induction s as [|c s IH]; simpl.
  - split; [constructor | reflexivity].
  - rewrite andb_true_iff, IH. split.
    + intros [H1 H2]. now constructor.
    + intros H. inversion H; subst. now split.
Qed.

Lemma is_sys_id_shaped s : is_sys_id s = true <-> sys_id_shaped s.
Proof.
  unfold is_sys_id, sys_id_shaped.
  rewrite andb_true_iff, Nat.eqb_eq, all_chars_Forall.
  split; intros [H1 H2]; split; try assumption;
    eapply Forall_impl; try eassumption; intros c Hc; now apply char_in_In.
Qed.

Lemma display_value_of_total v : display_value_of v = Returned (ref_display v).
Proof. destruct v; reflexivity. Qed.

Lemma py_get_dict d k v : py_get (PyDict d) k v =
  Returned (match dict_get d k with Some x => x | None => v end).
Proof. reflexivity. Qed.

Lemma py_get_none d k : py_get (PyDict d) k PyNone = Returned (field d k).
Proof. reflexivity. Qed.

Lemma request_sys_id_of_dict d :
  request_sys_id_of (PyDict d) = Returned (ref_value (field d "request")).
Proof.
  unfold request_sys_id_of, field. simpl.
  destruct (dict_get d "request") as [v|]; simpl; [|reflexivity].
  destruct v; reflexivity.
Qed.

(** On a record the loop body of [list_catalog_tasks] always returns, and
    this is the dictionary it returns. *)
Lemma list_task_dict d :
  list_task (PyDict d) = Returned (PyDict [
    ("sys_id", field d "sys_id");
    ("number", field d "number");
    ("short_description", field d "short_description");
    ("description", field d "description");
    ("state", field d "state");
    ("assigned_to", ref_display (field d "assigned_to"));
    ("assignment_group", ref_display (field d "assignment_group"));
    ("request", ref_display (field d "request"));
    ("request_sys_id", ref_value (field d "request"));
    ("created_on", field d "sys_created_on");
    ("updated_on", field d "sys_updated_on");
    ("due_date", field d "due_date");
    ("priority", field d "priority")]).
Proof.
  unfold list_task.
  repeat (rewrite ?py_get_none, ?display_value_of_total, ?request_sys_id_of_dict;
          cbn [obind]).
  reflexivity.
Qed.

Lemma get_task_dict d :
  get_task (PyDict d) = Returned (PyDict [
    ("sys_id", field d "sys_id");
    ("number", field d "number");
    ("short_description", field d "short_description");
    ("description", field d "description");
    ("state", field d "state");
    ("assigned_to", ref_display (field d "assigned_to"));
    ("assignment_group", ref_display (field d "assignment_group"));
    ("request", ref_display (field d "request"));
    ("request_sys_id", ref_value (field d "request"));
    ("created_on", field d "sys_created_on");
    ("updated_on", field d "sys_updated_on");
    ("due_date", field d "due_date");
    ("priority", field d "priority");
    ("work_notes", field d "work_notes");
    ("close_notes", field d "close_notes")]).
Proof.
  unfold get_task.
  repeat (rewrite ?py_get_none, ?display_value_of_total, ?request_sys_id_of_dict;
          cbn [obind]).
  reflexivity.
Qed.

Lemma list_task_not_dict v :
  isinstance_dict v = false -> list_task v = Raised AttributeError.
Proof. destruct v; simpl; intros H; try reflexivity; discriminate. Qed.

Lemma get_task_not_dict v :
  isinstance_dict v = false -> get_task v = Raised AttributeError.
Proof. destruct v; simpl; intros H; try reflexivity; discriminate. Qed.

(** * How the handlers run *)

Lemma obind_not_request {A B} (c : outcome A) (k : A -> outcome B) :
  is_request_exn c = false ->
  (forall a, is_request_exn (k a) = false) ->
  is_request_exn (obind c k) = false.
Proof. destruct c as [a|e]; simpl; auto. Qed.

Lemma py_get_not_request v k d : is_request_exn (py_get v k d) = false.
Proof. destruct v; reflexivity. Qed.

Lemma py_index0_not_request v : is_request_exn (py_index0 v) = false.
Proof. destruct v as [| | | |[|c s]|[|x l]|]; reflexivity. Qed.

Lemma py_iter_not_request v : is_request_exn (py_iter v) = false.
Proof. destruct v; reflexivity. Qed.

Lemma list_task_cases v :
  (exists t, list_task v = Returned (PyDict t)) \/ list_task v = Raised AttributeError.
Proof.
  destruct (isinstance_dict v) eqn:E.
  - left. destruct v; try discriminate. rewrite list_task_dict. eauto.
  - right. now apply list_task_not_dict.
Qed.

Lemma get_task_cases v :
  (exists t, get_task v = Returned (PyDict t)) \/ get_task v = Raised AttributeError.
Proof.
  destruct (isinstance_dict v) eqn:E.
  - left. destruct v; try discriminate. rewrite get_task_dict. eauto.
  - right. now apply get_task_not_dict.
Qed.

(** The loop of [list_catalog_tasks] returns the normalized records, or
    stops with [AttributeError] at an item that is not a record. *)
Lemma for_each_list_task_cases items :
  (exists ts, for_each list_task items = Returned (map PyDict ts)
              /\ List.length ts = List.length items)
  \/ for_each list_task items = Raised AttributeError.
Proof.
  induction items as [|x items IH]; simpl.
  - left. exists []. split; reflexivity.
  - destruct (list_task_cases x) as [(t & ->)| ->]; simpl; [|now right].
    destruct IH as [(ts & -> & L)| ->]; simpl; [|now right].
    left. exists (t :: ts). simpl. split; [reflexivity | now rewrite L].
Qed.

Lemma for_each_list_task_records recs :
  exists ts, for_each list_task (map PyDict recs) = Returned (map PyDict ts)
    /\ Forall2 (fun r t => list_task (PyDict r) = Returned (PyDict t)) recs ts.
Proof.
  induction recs as [|r recs (ts & E & F)]; simpl.
  - exists []. split; [reflexivity | constructor].
  - destruct (list_task_cases (PyDict r)) as [(t & Ht)|Ht].
    + rewrite Ht, E. simpl. exists (t :: ts). split; [reflexivity|].
      constructor; assumption.
    + rewrite list_task_dict in Ht. discriminate.
Qed.

Lemma list_tasks_of_not_request data : is_request_exn (list_tasks_of data) = false.
Proof.
  unfold list_tasks_of.
  apply obind_not_request; [apply py_get_not_request | intros result].
  apply obind_not_request; [apply py_iter_not_request | intros items].
  destruct (for_each_list_task_cases items) as [(ts & -> & _)| ->]; reflexivity.
Qed.

Lemma first_row_of_not_request tid url data :
  is_request_exn (first_row_of tid url data) = false.
Proof.
  unfold first_row_of.
  apply obind_not_request; [apply py_get_not_request | intros result].
  destruct (negb (truthy result)); [reflexivity|].
  apply obind_not_request; [apply py_index0_not_request | reflexivity].
Qed.

Lemma record_of_not_request tid data :
  is_request_exn (record_of tid data) = false.
Proof.
  unfold record_of.
  apply obind_not_request; [apply py_get_not_request | intros result].
  destruct (negb (truthy result)); reflexivity.
Qed.

Lemma validate_optional_str_not_request v :
  is_request_exn (validate_optional_str v) = false.
Proof. destruct v; reflexivity. Qed.

Lemma new_CatalogTaskResponse_not_request ok msg a b :
  is_request_exn (new_CatalogTaskResponse ok msg a b) = false.
Proof.
  unfold new_CatalogTaskResponse.
  apply obind_not_request; [apply validate_optional_str_not_request | intros x].
  apply obind_not_request; [apply validate_optional_str_not_request | reflexivity].
Qed.

Lemma failed_response_eq msg : failed_response msg = Returned (failed msg).
Proof. reflexivity. Qed.

Lemma resolved_url_of_not_request repr config tid data :
  is_request_exn (resolved_url_of repr config tid data) = false.
Proof.
  unfold resolved_url_of.
  apply obind_not_request; [apply py_get_not_request | intros result].
  destruct (negb (truthy result)); [reflexivity|].
  apply obind_not_request; [apply py_index0_not_request | intros first].
  apply obind_not_request; [apply py_get_not_request | reflexivity].
Qed.

Lemma updated_of_not_request body : is_request_exn (updated_of body) = false.
Proof.
  unfold updated_of.
  apply obind_not_request; [apply py_get_not_request | intros result].
  apply obind_not_request; [apply py_get_not_request | intros a].
  apply obind_not_request; [apply py_get_not_request | intros b].
  apply new_CatalogTaskResponse_not_request.
Qed.

Lemma checked_json_send req rem log :
  checked_json (send req) rem log
  = (reply_json (rem log req), (log ++ [(req, rem log req)])%list).
Proof.
  unfold checked_json, bind, send, lift, raise_for_status, reply_json.
  destruct (rem log req) as [msg|r]; [reflexivity|].
  destruct (http_error r); reflexivity.
Qed.

(** A [try] block made of one checked call followed by local work that
    raises no [RequestException] of its own. *)
Lemma try_checked_run {A} req (k : value -> outcome A) (h : string -> M A) rem log :
  (forall v, is_request_exn (k v) = false) ->
  try_except (data <- checked_json (send req) ;; lift (k data)) h rem log
  = match reply_json (rem log req) with
    | Raised (RequestException m) => h m rem (log ++ [(req, rem log req)])%list
    | Raised e => (Raised e, (log ++ [(req, rem log req)])%list)
    | Returned v => (k v, (log ++ [(req, rem log req)])%list)
    end.
Proof.
  intros Hk. unfold try_except, bind at 1. rewrite checked_json_send.
  destruct (reply_json (rem log req)) as [v|e].
  - unfold lift. specialize (Hk v). destruct (k v) as [a|[]]; try reflexivity.
    discriminate.
  - destruct e; reflexivity.
Qed.

Lemma list_run config auth p rem :
  let req := list_request config auth p in
  run (list_catalog_tasks config auth p) rem
  = (list_outcome (rem [] req), [(req, rem [] req)]).
Proof.
  intros req. unfold run, list_catalog_tasks, list_outcome. cbv zeta.
  change (requests_get _ _ _ _) with (send req).
  rewrite try_checked_run by apply list_tasks_of_not_request.
  case_reply.
Qed.

Lemma get_run repr config auth p rem :
  let tid := gp_task_id p in
  let req := if is_sys_id tid then get_record_request config auth tid
             else get_number_request config auth tid in
  run (get_catalog_task repr config auth p) rem
  = (get_outcome repr config tid (rem [] req), [(req, rem [] req)]).
Proof.
  intros tid req. subst req.
  unfold run, get_catalog_task, get_by_number, get_by_sys_id, get_outcome.
  cbv zeta. fold tid.
  destruct (is_sys_id tid) eqn:S.
  - unfold bind at 1. unfold ret at 1. unfold bind at 1.
    change (requests_get _ _ _ _) with (send (get_record_request config auth tid)).
    rewrite try_checked_run by apply record_of_not_request.
    case_reply.
    destruct (record_of tid v) as [[x|[td|]]|e]; reflexivity.
  - unfold bind at 1.
    change (requests_get _ _ _ _) with (send (get_number_request config auth tid)).
    rewrite try_checked_run by apply first_row_of_not_request.
    case_reply.
    destruct (first_row_of tid _ v) as [[x|[u [td|]]]|e]; try reflexivity;
      unfold bind, ret; rewrite ?S; reflexivity.
Qed.

Lemma update_run_sys_id repr config auth p rem :
  is_sys_id (up_task_id p) = true ->
  let req := put_request config auth
               (api_url config ++ "/table/sc_task/" ++ up_task_id p) p in
  run (update_catalog_task repr config auth p) rem
  = (put_outcome (rem [] req), [(req, rem [] req)]).
Proof.
  intros S req.
  unfold run, update_catalog_task, resolve_task_url, put_outcome. cbv zeta.
  rewrite S. unfold bind at 1. unfold ret at 1.
  change (requests_put _ _ _ _) with (send req).
  rewrite try_checked_run by apply updated_of_not_request.
  case_reply.
Qed.

Lemma update_run_number repr config auth p rem :
  is_sys_id (up_task_id p) = false ->
  let tid := up_task_id p in
  let g := update_number_request config auth tid in
  let rg := rem [] g in
  run (update_catalog_task repr config auth p) rem
  = match reply_json rg with
    | Raised (RequestException m) =>
        (Returned (failed ("Failed to find catalog task: " ++ m)), [(g, rg)])
    | Raised e => (Raised e, [(g, rg)])
    | Returned data =>
        match resolved_url_of repr config tid data with
        | Returned (Return r) => (Returned r, [(g, rg)])
        | Returned (Continue url) =>
            let pu := put_request config auth url p in
            let rp := rem [(g, rg)] pu in
            (put_outcome rp, [(g, rg); (pu, rp)])
        | Raised e => (Raised e, [(g, rg)])
        end
    end.
Proof.
  intros S tid g rg. subst tid.
  unfold run, update_catalog_task, resolve_task_url. cbv zeta.
  rewrite S. unfold bind at 1.
  change (requests_get _ _ _ _) with (send g).
  rewrite try_checked_run by apply resolved_url_of_not_request.
  fold rg. destruct (reply_json rg) as [v|[]]; try reflexivity.
  destruct (resolved_url_of repr config _ v) as [[r|url]|e]; try reflexivity.
  change (requests_put _ _ _ _) with (send (put_request config auth url p)).
  rewrite try_checked_run by apply updated_of_not_request.
  simpl app. unfold put_outcome.
  case_reply.
Qed.

(** * Routing by the shape of the identifier *)

Lemma number_query_get config auth tid :
  number_query config tid (get_number_request config auth tid).
Proof.
  unfold number_query, get_number_request; simpl.
  repeat split. eexists. repeat split.
Qed.

Lemma number_query_update config auth tid :
  number_query config tid (update_number_request config auth tid).
Proof.
  unfold number_query, update_number_request; simpl.
  repeat split. eexists. repeat split.
Qed.

Lemma is_sys_id_not_shaped s : is_sys_id s = false <-> ~ sys_id_shaped s.
Proof.
  rewrite <- is_sys_id_shaped. destruct (is_sys_id s); split; intros H;
    try reflexivity; try discriminate; try congruence.
Qed.

(** The log of an update has one exchange, or two: a GET then a PUT. *)
Lemma update_log_shape repr config auth p rem :
  let log := snd (run (update_catalog_task repr config auth p) rem) in
  if is_sys_id (up_task_id p)
  then exists pu rp, log = [(pu, rp)] /\
         single_record_request config PUT (up_task_id p) pu
  else exists g rg, number_query config (up_task_id p) g /\
         (log = [(g, rg)] \/
          exists pu rp, log = [(g, rg); (pu, rp)] /\
            put_to_resolved repr config rg pu).
Proof.
  intros log. subst log. destruct (is_sys_id (up_task_id p)) eqn:S.
  - rewrite update_run_sys_id by assumption. simpl.
    eexists _, _. split; [reflexivity|]. split; reflexivity.
  - rewrite update_run_number by assumption. cbv zeta.
    set (g := update_number_request config auth (up_task_id p)).
    exists g, (rem [] g). split; [apply number_query_update|].
    destruct (reply_json (rem [] g)) as [data|e] eqn:R.
    + unfold resolved_url_of.
      destruct (py_get data "result" (PyList [])) as [result|e] eqn:G;
        simpl; [|now left].
      destruct (negb (truthy result)); simpl; [now left|].
      destruct (py_index0 result) as [first|e] eqn:I; simpl; [|now left].
      destruct (py_get first "sys_id" PyNone) as [sid|e] eqn:Sid; simpl;
        [|now left].
      right. eexists _, _. split; [reflexivity|].
      exists data, result, first, sid. repeat split; assumption.
    + destruct e; simpl; now left.
Qed.

(** C1. For every task identifier, [get_catalog_task] and
    [update_catalog_task] take it for a sys_id exactly when it has 32
    characters, all among [0-9a-f].  In that case the first request goes to
    the single-record endpoint [/table/sc_task/<task_id>] (a GET for the
    lookup, the PUT for the update); for every other identifier the first
    request is a GET on [/table/sc_task] carrying
    [sysparm_query = number=<task_id>] and [sysparm_limit = 1]. *)
Theorem sys_id_routing :
  forall py_repr config auth rem
         (gp : GetCatalogTaskParams) (up : UpdateCatalogTaskParams),
    (forall tid, is_sys_id tid = true <-> sys_id_shaped tid) /\
    routes_by_shape config GET (gp_task_id gp)
      (snd (run (get_catalog_task py_repr config auth gp) rem)) /\
    routes_by_shape config PUT (up_task_id up)
      (snd (run (update_catalog_task py_repr config auth up) rem)).
Proof.
  intros repr config auth rem gp up. split; [apply is_sys_id_shaped|]. split.
  - rewrite get_run. cbv zeta. simpl snd. unfold routes_by_shape, requests_of.
    simpl map. eexists _, _. split; [reflexivity|].
    destruct (is_sys_id (gp_task_id gp)) eqn:S.
    + split; [intros _; split; reflexivity|].
      intros N. apply is_sys_id_not_shaped in N. congruence.
    + split; [|intros _; apply number_query_get].
      intros Y. apply is_sys_id_shaped in Y. congruence.
  - pose proof (update_log_shape repr config auth up rem) as L. cbv zeta in L.
    unfold routes_by_shape, requests_of.
    destruct (is_sys_id (up_task_id up)) eqn:S.
    + destruct L as (pu & rp & -> & Hpu). simpl.
      eexists _, _. split; [reflexivity|]. split; [intros _; exact Hpu|].
      intros N. apply is_sys_id_not_shaped in N. congruence.
    + destruct L as (g & rg & Hg & [-> | (pu & rp & -> & _)]); simpl;
        eexists _, _; (split; [reflexivity|]);
        (split; [intros Y; apply is_sys_id_shaped in Y; congruence
                | intros _; exact Hg]).
Qed.

(** * Updating a task located by number *)

(** C2. When the identifier given to [update_catalog_task] is not
    sys_id-shaped, the first call is the GET that resolves the sys_id by
    number, and a PUT, if there is one, comes second and goes to the record
    that GET resolved.  If the resolution reply carries an empty result
    list, the handler returns [success = False] with the message
    [Catalog task not found: <task_id>] and the GET is the only call.  If
    the resolution reply carries a non-empty result whose first row gives a
    [sys_id], the PUT is sent: the calls are exactly that GET followed by
    one PUT to [/table/sc_task/<sys_id>] with the update's body, and the
    handler's outcome is what it makes of the reply to the PUT. *)
Theorem update_by_number_resolves_first :
  forall py_repr config auth rem (p : UpdateCatalogTaskParams),
    ~ sys_id_shaped (up_task_id p) ->
    let res := run (update_catalog_task py_repr config auth p) rem in
    exists g rg,
      number_query config (up_task_id p) g /\
      rg = rem [] g /\
      (snd res = [(g, rg)] \/
       exists pu rp, snd res = [(g, rg); (pu, rp)] /\
         put_to_resolved py_repr config rg pu) /\
      (forall body,
         reply_json rg = Returned body ->
         py_get body "result" (PyList []) = Returned (PyList []) ->
         res = (Returned (failed ("Catalog task not found: " ++ up_task_id p)),
                [(g, rg)])) /\
      (forall body result first sid,
         reply_json rg = Returned body ->
         py_get body "result" (PyList []) = Returned result ->
         truthy result = true ->
         py_index0 result = Returned first ->
         py_get first "sys_id" PyNone = Returned sid ->
         exists pu rp,
           snd res = [(g, rg); (pu, rp)] /\
           rp = rem [(g, rg)] pu /\
           req_method pu = PUT /\
           req_url pu = api_url config ++ "/table/sc_task/" ++ py_str py_repr sid /\
           req_json pu = Some (update_data p) /\
           fst res = put_outcome rp).
Proof.
  intros repr config auth rem p N res. apply is_sys_id_not_shaped in N.
  set (g := update_number_request config auth (up_task_id p)).
  exists g, (rem [] g). split; [apply number_query_update|].
  split; [reflexivity|]. split; [|split].
  - pose proof (update_log_shape repr config auth p rem) as L. cbv zeta in L.
    rewrite N in L. destruct L as (g' & rg' & _ & L).
    subst res. rewrite update_run_number in * by assumption. cbv zeta in *.
    fold g in L |- *.
    destruct (reply_json (rem [] g)) as [data|[]]; simpl in *;
      try (now left).
    destruct (resolved_url_of repr config (up_task_id p) data) as [[r|url]|e];
      simpl in *; try (now left).
    right. destruct L as [L | (pu & rp & L & H)]; [discriminate|].
    injection L as <- <- <- <-. eexists _, _. split; [reflexivity | exact H].
  - intros body R E. subst res.
    rewrite update_run_number by assumption. cbv zeta. fold g. rewrite R.
    unfold resolved_url_of. rewrite E. reflexivity.
  - intros body result first sid R G T I Sg. subst res.
    rewrite update_run_number by assumption. cbv zeta. fold g. rewrite R.
    unfold resolved_url_of. rewrite G. cbn [obind]. rewrite T.
    simpl negb. cbv iota. rewrite I. cbn [obind]. rewrite Sg. cbn [obind].
    eexists _, _. split; [reflexivity|]. repeat split.
Qed.

Lemma update_by_number_resolves_first_witness :
  (let res := run (update_catalog_task repr_unused test_config test_auth
                     test_update_params) not_found_remote in
   fst res = Returned (failed "Catalog task not found: SCTASK0001639213") /\
   List.length (snd res) = 1) /\
  (let res := run (update_catalog_task repr_unused test_config test_auth
                     test_update_params) test_update_remote in
   exists g rg pu rp,
     snd res = [(g, rg); (pu, rp)] /\
     req_method g = GET /\
     req_method pu = PUT /\
     req_url pu = "https://test.service-now.com/api/now/table/sc_task/task123" /\
     req_json pu = Some [("state", PyStr "3"); ("work_notes", PyStr "Updated notes")] /\
     fst res = Returned {| success := true;
                           message := "Catalog task updated successfully";
                           task_id := Some "task123";
                           task_number := Some "SCTASK0001639213" |}).
Proof.
  assert (N : ~ sys_id_shaped (up_task_id test_update_params)).
  { intros [L _]. simpl in L. discriminate. }
  split.
  - destruct (update_by_number_resolves_first repr_unused test_config test_auth
                not_found_remote test_update_params N)
      as (g & rg & _ & Hrg & _ & H & _).
    cbv zeta. rewrite (H (PyDict [("result", PyList [])])).
    + split; reflexivity.
    + subst rg. reflexivity.
    + reflexivity.
  - destruct (update_by_number_resolves_first repr_unused test_config test_auth
                test_update_remote test_update_params N)
      as (g & rg & (Hg & _) & Hrg & _ & _ & H).
    destruct (H (PyDict [("result", PyList [PyDict [("sys_id", PyStr "task123")]])])
                (PyList [PyDict [("sys_id", PyStr "task123")]])
                (PyDict [("sys_id", PyStr "task123")])
                (PyStr "task123"))
      as (pu & rp & L & Hrp & M & U & J & F);
      try reflexivity.
    + subst rg. unfold test_update_remote. rewrite Hg. reflexivity.
    + exists g, rg, pu, rp.
      split; [exact L|]. split; [exact Hg|]. split; [exact M|].
      split; [exact U|]. split; [exact J|].
      rewrite F, Hrp. unfold test_update_remote. rewrite M. reflexivity.
Defined.

(** * Number of outbound calls *)

(** C3, as stated, fails: the update of the repository's test
    [test_update_catalog_task_by_number] makes two calls, a GET and a PUT. *)
Lemma single_call_counterexample :
  let log := snd (run (update_catalog_task repr_unused test_config test_auth
                         test_update_params) test_update_remote) in
  methods_of log = [GET; PUT] /\ List.length log <> 1.
Proof. split; [reflexivity | simpl; discriminate]. Qed.

(** C3, amended. [list_catalog_tasks] and [get_catalog_task] make exactly
    one outbound call (a GET) on every invocation.  [update_catalog_task]
    makes exactly one call, the PUT, when the identifier is sys_id-shaped;
    otherwise it makes the GET that resolves the number, followed by at
    most one PUT.  No call is repeated. *)
Theorem outbound_calls :
  forall py_repr config auth rem,
    (forall p, methods_of (snd (run (list_catalog_tasks config auth p) rem)) = [GET]) /\
    (forall p, methods_of (snd (run (get_catalog_task py_repr config auth p) rem)) = [GET]) /\
    (forall p,
       let ms := methods_of (snd (run (update_catalog_task py_repr config auth p) rem)) in
       (sys_id_shaped (up_task_id p) -> ms = [PUT]) /\
       (~ sys_id_shaped (up_task_id p) -> ms = [GET] \/ ms = [GET; PUT])).
Proof.
  intros repr config auth rem. repeat split.
  - intros p. rewrite list_run. reflexivity.
  - intros p. rewrite get_run. cbv zeta. unfold methods_of. simpl.
    destruct (is_sys_id (gp_task_id p)); reflexivity.
  - intros Y. apply is_sys_id_shaped in Y.
    rewrite update_run_sys_id by assumption. reflexivity.
  - intros N. apply is_sys_id_not_shaped in N.
    pose proof (update_log_shape repr config auth p rem) as L.
    cbv zeta in L. rewrite N in L.
    destruct L as (g & rg & (Hm & _) & [-> | (pu & rp & -> & H)]).
    + left. unfold methods_of. simpl. now rewrite Hm.
    + right. destruct H as (_ & _ & _ & _ & _ & _ & _ & _ & (Hp & _)).
      unfold methods_of. simpl. now rewrite Hm, Hp.
Qed.

Lemma outbound_calls_witness :
  methods_of (snd (run (update_catalog_task repr_unused test_config test_auth
                          sample_sys_id_update) test_update_remote)) = [PUT] /\
  (let ms := methods_of (snd (run (update_catalog_task repr_unused test_config
                                     test_auth test_update_params)
                                  test_update_remote)) in
   ms = [GET] \/ ms = [GET; PUT]).
Proof.
  destruct (outbound_calls repr_unused test_config test_auth test_update_remote)
    as (_ & _ & HU).
  split.
  - apply (proj1 (HU sample_sys_id_update)).
    apply is_sys_id_shaped. reflexivity.
  - apply (proj2 (HU test_update_params)).
    intros [L _]. simpl in L. discriminate.
Defined.

(** * Filters of the listing *)

Lemma list_filters_split p :
  list_filters p
  = (filter_of (lp_state p) state_predicate
     ++ filter_of (lp_assigned_to p) assigned_to_predicate
     ++ filter_of (lp_assignment_group p) assignment_group_predicate
     ++ filter_of (lp_request p) request_predicate
     ++ filter_of (lp_query p) query_predicate)%list.
Proof.
  unfold list_filters, filter_of, py_append.
  destruct (str_truthy (lp_state p)), (str_truthy (lp_assigned_to p)),
    (str_truthy (lp_assignment_group p)), (str_truthy (lp_request p)),
    (str_truthy (lp_query p)); reflexivity.
Qed.

Lemma filter_of_one o pred : one_predicate o pred (filter_of o pred).
Proof.
  unfold one_predicate, filter_of. split.
  - intros s -> N. simpl. apply String.eqb_neq in N. now rewrite N.
  - intros N. destruct (str_truthy o) eqn:T; [|reflexivity].
    apply str_truthy_populated in T. contradiction.
Qed.

Lemma list_query_params_query p :
  dict_get (list_query_params p) "sysparm_query"
  = match list_filters p with
    | [] => None
    | fs => Some (PyStr (String.concat "^" fs))
    end.
Proof.
  unfold list_query_params. cbv zeta.
  destruct (list_filters p); reflexivity.
Qed.

(** C4. The one call of [list_catalog_tasks] is a GET whose parameters
    carry no [sysparm_query] key when none of [state], [assigned_to],
    [assignment_group], [request], [query] is populated (each is [None] or
    empty).  Otherwise [sysparm_query] is the caret-joined list in which
    every populated field has exactly one predicate and the others none:
    [state=..], [assigned_to=..], [assignment_group=..], [request=..], and
    for [query] the predicate
    [short_descriptionLIKE<q>^ORdescriptionLIKE<q>]. *)
Theorem list_filter_predicates :
  forall config auth rem (p : ListCatalogTasksParams),
  exists req rep qp f1 f2 f3 f4 f5,
    snd (run (list_catalog_tasks config auth p) rem) = [(req, rep)] /\
    req_method req = GET /\
    req_params req = Some qp /\
    one_predicate (lp_state p) state_predicate f1 /\
    one_predicate (lp_assigned_to p) assigned_to_predicate f2 /\
    one_predicate (lp_assignment_group p) assignment_group_predicate f3 /\
    one_predicate (lp_request p) request_predicate f4 /\
    one_predicate (lp_query p) query_predicate f5 /\
    dict_get qp "sysparm_query"
    = match (f1 ++ f2 ++ f3 ++ f4 ++ f5)%list with
      | [] => None
      | fs => Some (PyStr (String.concat "^" fs))
      end /\
    (~ populated (lp_state p) /\ ~ populated (lp_assigned_to p) /\
     ~ populated (lp_assignment_group p) /\ ~ populated (lp_request p) /\
     ~ populated (lp_query p) ->
     dict_get qp "sysparm_query" = None).
Proof.
  intros config auth rem p. rewrite list_run. cbv zeta.
  eexists _, _, _.
  exists (filter_of (lp_state p) state_predicate),
    (filter_of (lp_assigned_to p) assigned_to_predicate),
    (filter_of (lp_assignment_group p) assignment_group_predicate),
    (filter_of (lp_request p) request_predicate),
    (filter_of (lp_query p) query_predicate).
  split; [reflexivity|]. split; [reflexivity|]. split; [reflexivity|].
  repeat (split; [apply filter_of_one|]).
  rewrite list_query_params_query, list_filters_split. split; [reflexivity|].
  intros (N1 & N2 & N3 & N4 & N5).
  rewrite (proj2 (filter_of_one _ state_predicate) N1),
    (proj2 (filter_of_one _ assigned_to_predicate) N2),
    (proj2 (filter_of_one _ assignment_group_predicate) N3),
    (proj2 (filter_of_one _ request_predicate) N4),
    (proj2 (filter_of_one _ query_predicate) N5).
  reflexivity.
Qed.

Lemma list_filter_predicates_witness :
  exists req rep qp,
    snd (run (list_catalog_tasks test_config test_auth test_list_params)
             sample_rows_remote) = [(req, rep)] /\
    req_params req = Some qp /\
    dict_get qp "sysparm_query" = None.
Proof.
  destruct (list_filter_predicates test_config test_auth sample_rows_remote
              test_list_params)
    as (req & rep & qp & f1 & f2 & f3 & f4 & f5 & L & _ & P & _ & _ & _ & _ & _
        & _ & H).
  exists req, rep, qp. split; [exact L|]. split; [exact P|].
  apply H. repeat split; intros (s & E & _); discriminate.
Defined.

Example sample_list_query :
  dict_get (list_query_params sample_list_params) "sysparm_query"
  = Some (PyStr "state=2^short_descriptionLIKEvpn^ORdescriptionLIKEvpn").
Proof. reflexivity. Qed.

(** * Reference fields *)

Lemma ref_display_normalizes rec f v :
  (forall o, dict_get rec f = Some (PyDict o) ->
             v = ref_display (field rec f) -> Some v = Some (field o "display_value")) /\
  (forall x, dict_get rec f = Some x -> isinstance_dict x = false ->
             v = ref_display (field rec f) -> Some v = Some x).
Proof.
  unfold field. split.
  - intros o -> ->. reflexivity.
  - intros x -> Hx ->. destruct x; try reflexivity. discriminate.
Qed.

Lemma list_task_references rec task :
  list_task (PyDict rec) = Returned (PyDict task) ->
  normalized_references rec task.
Proof.
  rewrite list_task_dict. intros E. injection E as <-.
  intros f [<- | [<- | [<- | []]]]; split; simpl.
  all: try (intros o H; now apply (proj1 (ref_display_normalizes rec _ _) o H)).
  all: intros x H Hx; now apply (proj2 (ref_display_normalizes rec _ _) x H Hx).
Qed.

Lemma get_task_references rec task :
  get_task (PyDict rec) = Returned (PyDict task) ->
  normalized_references rec task.
Proof.
  rewrite get_task_dict. intros E. injection E as <-.
  intros f [<- | [<- | [<- | []]]]; split; simpl.
  all: try (intros o H; now apply (proj1 (ref_display_normalizes rec _ _) o H)).
  all: intros x H Hx; now apply (proj2 (ref_display_normalizes rec _ _) x H Hx).
Qed.

(** A listing whose reply carries records returns their normalized tasks. *)
Lemma list_returns_on_records config auth rem p req rep body recs :
  snd (run (list_catalog_tasks config auth p) rem) = [(req, rep)] ->
  reply_json rep = Returned body ->
  py_get body "result" (PyList []) = Returned (PyList (map PyDict recs)) ->
  exists tasks,
    fst (run (list_catalog_tasks config auth p) rem)
    = Returned (PyDict [
        ("success", PyBool true);
        ("message", PyStr ("Found " ++ str_of_nat (List.length recs) ++ " catalog tasks"));
        ("tasks", PyList (map PyDict tasks))]) /\
    Forall2 (fun r t => list_task (PyDict r) = Returned (PyDict t)) recs tasks.
Proof.
  rewrite list_run. cbv zeta. simpl. intros L R G.
  injection L as _ <-. unfold list_outcome. rewrite R.
  unfold list_tasks_of. rewrite G. simpl.
  destruct (for_each_list_task_records recs) as (ts & -> & F). simpl.
  exists ts. split; [|assumption].
  rewrite length_map. now rewrite (Forall2_length F).
Qed.

(** A lookup whose reply carries a record returns its normalized task. *)
Lemma get_returns_on_record repr config auth rem p req rep body rec :
  snd (run (get_catalog_task repr config auth p) rem) = [(req, rep)] ->
  reply_json rep = Returned body ->
  fetched_record (gp_task_id p) body rec ->
  exists task,
    fst (run (get_catalog_task repr config auth p) rem)
    = Returned (PyDict [
        ("success", PyBool true);
        ("message", PyStr ("Catalog task "
                           ++ py_str repr (match dict_get rec "number" with
                                           | Some n => n
                                           | None => PyStr (gp_task_id p)
                                           end)
                           ++ " found"));
        ("task", PyDict task)]) /\
    get_task (PyDict rec) = Returned (PyDict task).
Proof.
  rewrite get_run. cbv zeta. simpl. intros L R F.
  injection L as _ <-. unfold get_outcome. rewrite R.
  unfold fetched_record in F.
  destruct (is_sys_id (gp_task_id p)).
  - destruct F as [G Hne]. unfold record_of. rewrite G. simpl.
    destruct rec as [|kv rec]; [contradiction|]. simpl.
    unfold get_found. rewrite get_task_dict. simpl. eexists. split; reflexivity.
  - destruct F as [rest G]. unfold first_row_of. rewrite G. simpl.
    unfold get_found. rewrite get_task_dict. simpl. eexists. split; reflexivity.
Qed.

(** C5. For every record the remote table returns and each of the
    reference fields [assigned_to], [assignment_group], [request]: when the
    field is an object the normalized task holds its [display_value], and
    when it is any other value the normalized task holds that value
    unchanged.  This holds for the tasks of [list_catalog_tasks] and for
    the task of [get_catalog_task]. *)
Theorem reference_fields_normalized :
  forall py_repr config auth rem,
    (forall p req rep body recs,
       snd (run (list_catalog_tasks config auth p) rem) = [(req, rep)] ->
       reply_json rep = Returned body ->
       py_get body "result" (PyList []) = Returned (PyList (map PyDict recs)) ->
       exists msg tasks,
         fst (run (list_catalog_tasks config auth p) rem)
         = Returned (PyDict [("success", PyBool true);
                             ("message", PyStr msg);
                             ("tasks", PyList (map PyDict tasks))]) /\
         Forall2 normalized_references recs tasks) /\
    (forall p req rep body rec,
       snd (run (get_catalog_task py_repr config auth p) rem) = [(req, rep)] ->
       reply_json rep = Returned body ->
       fetched_record (gp_task_id p) body rec ->
       exists msg task,
         fst (run (get_catalog_task py_repr config auth p) rem)
         = Returned (PyDict [("success", PyBool true);
                             ("message", PyStr msg);
                             ("task", PyDict task)]) /\
         normalized_references rec task).
Proof.
  intros repr config auth rem. split.
  - intros p req rep body recs L R G.
    destruct (list_returns_on_records config auth rem p req rep body recs L R G)
      as (tasks & E & F).
    eexists _, tasks. split; [exact E|].
    eapply Forall2_impl; [|exact F]. intros r t. apply list_task_references.
  - intros p req rep body rec L R F.
    destruct (get_returns_on_record repr config auth rem p req rep body rec L R F)
      as (task & E & T).
    eexists _, task. split; [exact E|]. now apply get_task_references.
Qed.

Lemma reference_fields_normalized_witness :
  (exists msg tasks,
     fst (run (list_catalog_tasks test_config test_auth sample_list_params)
              sample_rows_remote)
     = Returned (PyDict [("success", PyBool true);
                         ("message", PyStr msg);
                         ("tasks", PyList (map PyDict tasks))]) /\
     Forall2 normalized_references [sample_record] tasks) /\
  (exists msg task,
     fst (run (get_catalog_task repr_unused test_config test_auth
                 {| gp_task_id := sample_sys_id |}) sample_record_remote)
     = Returned (PyDict [("success", PyBool true);
                         ("message", PyStr msg);
                         ("task", PyDict task)]) /\
     normalized_references sample_record task).
Proof.
  split.
  - eapply (proj1 (reference_fields_normalized repr_unused test_config test_auth
                     sample_rows_remote)
              sample_list_params _ _ _ [sample_record]);
      reflexivity.
  - eapply (proj2 (reference_fields_normalized repr_unused test_config test_auth
                     sample_record_remote)
              {| gp_task_id := sample_sys_id |});
      [reflexivity | reflexivity | split; [reflexivity | discriminate]].
Defined.

(** * Remote failures *)

Lemma failure_of_reply_json rep msg :
  failure_of rep = Some msg -> reply_json rep = Raised (RequestException msg).
Proof.
  destruct rep as [m|r]; simpl.
  - intros H; injection H as ->; reflexivity.
  - destruct (http_error r); intros H; try discriminate;
      injection H as ->; reflexivity.
Qed.

Lemma reply_json_returned rep body :
  reply_json rep = Returned body -> failure_of rep = None.
Proof.
  destruct rep as [m|r]; simpl; [discriminate|].
  destruct (http_error r); [discriminate | reflexivity].
Qed.

Lemma reply_json_raised rep e :
  reply_json rep = Raised e -> exists m, e = RequestException m.
Proof.
  destruct rep as [m|r]; simpl.
  - intros H. injection H as <-. eauto.
  - destruct (http_error r); [intros H; injection H as <-; eauto|].
    unfold response_json. destruct (decode_error r); intros H;
      [injection H as <-; eauto | discriminate].
Qed.

(** C6. Whenever a call made by one of the three handlers fails, be it
    that the call raises (network error) or that the status check of the
    response raises (error status), the handler does not raise: it returns
    a result with [success = False] whose message is a fixed description
    followed by the text of the error. *)
Theorem remote_failure_reported :
  forall py_repr config auth rem,
    (forall p req rep msg,
       In (req, rep) (snd (run (list_catalog_tasks config auth p) rem)) ->
       failure_of rep = Some msg ->
       fst (run (list_catalog_tasks config auth p) rem)
       = Returned (PyDict [
           ("success", PyBool false);
           ("message", PyStr ("Failed to list catalog tasks: " ++ msg));
           ("tasks", PyList [])])) /\
    (forall p req rep msg,
       In (req, rep) (snd (run (get_catalog_task py_repr config auth p) rem)) ->
       failure_of rep = Some msg ->
       fst (run (get_catalog_task py_repr config auth p) rem)
       = Returned (PyDict [
           ("success", PyBool false);
           ("message", PyStr ("Failed to fetch catalog task: " ++ msg))])) /\
    (forall p req rep msg,
       In (req, rep) (snd (run (update_catalog_task py_repr config auth p) rem)) ->
       failure_of rep = Some msg ->
       exists what,
         (what = "Failed to find catalog task: " \/
          what = "Failed to update catalog task: ") /\
         fst (run (update_catalog_task py_repr config auth p) rem)
         = Returned {| success := false; message := what ++ msg;
                       task_id := None; task_number := None |}).
Proof.
  intros repr config auth rem. repeat split.
  - intros p req rep msg. rewrite list_run. cbv zeta. simpl.
    intros [E | []] F. injection E as _ <-.
    apply failure_of_reply_json in F. unfold list_outcome. now rewrite F.
  - intros p req rep msg. rewrite get_run. cbv zeta. simpl.
    intros [E | []] F. injection E as _ <-.
    apply failure_of_reply_json in F. unfold get_outcome. now rewrite F.
  - intros p req rep msg.
    destruct (is_sys_id (up_task_id p)) eqn:S.
    + rewrite update_run_sys_id by assumption. cbv zeta. simpl.
      intros [E | []] F. injection E as _ <-.
      apply failure_of_reply_json in F. unfold put_outcome. rewrite F.
      eexists. split; [right; reflexivity | reflexivity].
    + rewrite update_run_number by assumption. cbv zeta.
      set (g := update_number_request config auth (up_task_id p)).
      destruct (reply_json (rem [] g)) as [data|e] eqn:R.
      * pose proof (reply_json_returned _ _ R) as NF.
        destruct (resolved_url_of repr config (up_task_id p) data)
          as [[r|url]|e]; simpl.
        -- intros [E | []] F. injection E as _ <-. congruence.
        -- intros [E | [E | []]] F; injection E as _ <-; [congruence|].
           apply failure_of_reply_json in F. unfold put_outcome. rewrite F.
           eexists. split; [right; reflexivity | reflexivity].
        -- intros [E | []] F. injection E as _ <-. congruence.
      * assert (Hm : exists m, e = RequestException m)
          by (eapply reply_json_raised; exact R).
        destruct Hm as [m ->]. simpl.
        intros [E | []] F. injection E as _ <-.
        apply failure_of_reply_json in F. rewrite R in F. injection F as ->.
        eexists. split; [left; reflexivity | reflexivity].
Qed.

Lemma remote_failure_reported_witness :
  fst (run (list_catalog_tasks test_config test_auth sample_list_params)
           failing_remote)
  = Returned (PyDict [
      ("success", PyBool false);
      ("message", PyStr "Failed to list catalog tasks: connection refused");
      ("tasks", PyList [])]) /\
  fst (run (get_catalog_task repr_unused test_config test_auth sample_get_params)
           failing_remote)
  = Returned (PyDict [
      ("success", PyBool false);
      ("message", PyStr "Failed to fetch catalog task: connection refused")]) /\
  exists what,
    (what = "Failed to find catalog task: " \/
     what = "Failed to update catalog task: ") /\
    fst (run (update_catalog_task repr_unused test_config test_auth
                test_update_params) failing_remote)
    = Returned {| success := false; message := what ++ "connection refused";
                  task_id := None; task_number := None |}.
Proof.
  destruct (remote_failure_reported repr_unused test_config test_auth
              failing_remote) as (HL & HG & HU).
  split; [|split].
  - eapply (HL sample_list_params); [left; reflexivity | reflexivity].
  - eapply (HG sample_get_params); [left; reflexivity | reflexivity].
  - eapply (HU test_update_params); [left; reflexivity | reflexivity].
Defined.

(** * The SSE session entry point *)

(** C7. When any of the headers [X-ServiceNow-Instance-URL],
    [X-ServiceNow-Username], [X-ServiceNow-Password] is missing from the
    inbound request, [handle_sse] answers with status 400 and a JSON body
    holding an [error] text, and creates no MCP instance. *)
Theorem missing_header_rejected :
  forall request : ServerSse.Request,
    ServerSse.headers_get request "X-ServiceNow-Instance-URL" = None \/
    ServerSse.headers_get request "X-ServiceNow-Username" = None \/
    ServerSse.headers_get request "X-ServiceNow-Password" = None ->
    fst (ServerSse.handle_sse request)
    = Some {| ServerSse.content :=
                [("error", PyStr "Missing required headers for ServiceNow connection")];
              ServerSse.status_code := 400 |} /\
    snd (ServerSse.handle_sse request) = [] /\
    existsb ServerSse.creates_instance (snd (ServerSse.handle_sse request)) = false.
Proof.
  intros request H. unfold ServerSse.handle_sse, ServerSse.py_all. simpl forallb.
  assert (T : str_truthy (ServerSse.headers_get request "X-ServiceNow-Instance-URL")
              && (str_truthy (ServerSse.headers_get request "X-ServiceNow-Username")
              && (str_truthy (ServerSse.headers_get request "X-ServiceNow-Password")
              && true)) = false).
  { destruct H as [-> | [-> | ->]]; simpl;
      rewrite ?andb_false_r; reflexivity. }
  rewrite T. simpl. repeat split.
Qed.

Lemma missing_header_rejected_witness :
  fst (ServerSse.handle_sse request_without_password)
  = Some {| ServerSse.content :=
              [("error", PyStr "Missing required headers for ServiceNow connection")];
            ServerSse.status_code := 400 |} /\
  snd (ServerSse.handle_sse request_without_password) = [] /\
  existsb ServerSse.creates_instance
    (snd (ServerSse.handle_sse request_without_password)) = false.
Proof.
  apply (missing_header_rejected request_without_password).
  right. right. reflexivity.
Defined.

Example credentials_accepted :
  ServerSse.handle_sse request_with_credentials
  = (None,
     [ServerSse.CreateMcpInstance (Some "https://test.service-now.com")
        (Some "admin") (Some "secret");
      ServerSse.ConnectSse; ServerSse.RunMcpServer]).
Proof. reflexivity. Qed.

(** * Shape of the results *)











(** An update whose PUT is answered with the updated record returns the
    identifiers of that record. *)
Lemma update_returns_on_record repr config auth rem p log' pu rp body rec a b :
  snd (run (update_catalog_task repr config auth p) rem)
  = (log' ++ [(pu, rp)])%list ->
  req_method pu = PUT ->
  reply_json rp = Returned body ->
  py_get body "result" (PyDict []) = Returned (PyDict rec) ->
  validate_optional_str (field rec "sys_id") = Returned a ->
  validate_optional_str (field rec "number") = Returned b ->
  fst (run (update_catalog_task repr config auth p) rem)
  = Returned {| success := true; message := "Catalog task updated successfully";
                task_id := a; task_number := b |}.
Proof.
  intros L M R G Va Vb.
  assert (U : updated_of body
              = Returned {| success := true;
                            message := "Catalog task updated successfully";
                            task_id := a; task_number := b |}).
  { unfold updated_of, new_CatalogTaskResponse. rewrite G. cbn [obind].
    rewrite !py_get_none. cbn [obind]. rewrite Va, Vb. reflexivity. }
  destruct (is_sys_id (up_task_id p)) eqn:S.
  - rewrite update_run_sys_id in * by assumption. cbv zeta in *. simpl in *.
    destruct log' as [|x [|y l]]; try discriminate.
    injection L as _ L. unfold put_outcome. rewrite L, R. exact U.
  - rewrite update_run_number in * by assumption. cbv zeta in *.
    set (g := update_number_request config auth (up_task_id p)) in *.
    destruct (reply_json (rem [] g)) as [data|e] eqn:Rg.
    + destruct (resolved_url_of repr config (up_task_id p) data) as [[r|url]|e];
        simpl in *.
      * destruct log' as [|x [|y l]]; try discriminate.
        injection L as L _. subst pu. discriminate.
      * destruct log' as [|x [|y [|z l]]]; try discriminate.
        injection L as _ _ L. unfold put_outcome. rewrite L, R. exact U.
      * destruct log' as [|x [|y l]]; try discriminate.
        injection L as L _. subst pu. discriminate.
    + destruct (reply_json_raised _ _ Rg) as [m ->]. simpl in *.
      destruct log' as [|x [|y l]]; try discriminate.
      injection L as L _. subst pu. discriminate.
Qed.

(** * Body of the update *)

Lemma dict_get_set d k v k' :
  dict_get (dict_set d k v) k'
  = if String.eqb k k' then Some v else dict_get d k'.
Proof.
  induction d as [|[k0 v0] d IH]; simpl.
  - reflexivity.
  - destruct (String.eqb_spec k0 k) as [->|N]; simpl.
    + destruct (String.eqb k k'); reflexivity.
    + rewrite IH. destruct (String.eqb_spec k0 k') as [->|N']; [|reflexivity].
      apply String.eqb_neq in N. rewrite String.eqb_sym in N. now rewrite N.
Qed.

Lemma keys_set d k v :
  NoDup (keys d) -> NoDup (keys (dict_set d k v)) /\
  (forall x, In x (keys (dict_set d k v)) <-> x = k \/ In x (keys d)).
Proof.
  induction d as [|[k0 v0] d IH]; intros ND.
  - split.
    + simpl. constructor; [intros [] | constructor].
    + intros x. simpl. intuition congruence.
  - inversion ND as [|? ? Hk0 ND']; subst. simpl.
    destruct (String.eqb_spec k0 k) as [->|N].
    + split; [exact ND|]. intros x. simpl. intuition congruence.
    + destruct (IH ND') as [ND'' Hin]. split.
      * simpl. constructor; [|assumption]. rewrite Hin. intros [H|H]; auto.
      * intros x. simpl. rewrite Hin. tauto.
Qed.

Lemma dict_get_keys d k : In k (keys d) <-> dict_get d k <> None.
Proof.
  induction d as [|[k0 v0] d IH]; simpl.
  - split; [contradiction | congruence].
  - destruct (String.eqb_spec k0 k) as [->|N].
    + split; [discriminate | auto].
    + rewrite <- IH. split; [intros [H|H]; [contradiction | assumption] | auto].
Qed.

Lemma update_data_get p f :
  dict_get (update_data p) f
  = if str_truthy (update_param p f) then Some (opt_value (update_param p f))
    else None.
Proof.
  unfold update_data, update_param.
  destruct (str_truthy (up_state p)) eqn:T1,
    (str_truthy (up_assigned_to p)) eqn:T2,
    (str_truthy (up_assignment_group p)) eqn:T3,
    (str_truthy (up_work_notes p)) eqn:T4,
    (str_truthy (up_close_notes p)) eqn:T5;
    rewrite ?dict_get_set; simpl dict_get;
    repeat match goal with
    | |- context [String.eqb ?a f] =>
        destruct (String.eqb_spec a f);
        [subst f; simpl; rewrite ?T1, ?T2, ?T3, ?T4, ?T5; reflexivity|]
    end; reflexivity.
Qed.

Lemma update_data_nodup p : NoDup (keys (update_data p)).
Proof.
  unfold update_data.
  assert (E : NoDup (keys [])) by constructor.
  revert E. generalize (@nil (string * value)). intros d0 E0.
  repeat match goal with
  | |- context [if str_truthy ?o then dict_set ?d ?k ?v else ?d] =>
      let d' := fresh "d" in let E' := fresh "E" in
      assert (E' : NoDup (keys (if str_truthy o then dict_set d k v else d)))
        by (destruct (str_truthy o); [now apply keys_set | assumption]);
      generalize dependent (if str_truthy o then dict_set d k v else d);
      intros d' E'
  end.
  assumption.
Qed.

Lemma opt_value_populated o s : o = Some s -> opt_value o = PyStr s.
Proof. now intros ->. Qed.

(** C9. The body of the PUT sent by [update_catalog_task] holds exactly
    those of [state], [assigned_to], [assignment_group], [work_notes],
    [close_notes] whose parameter is a non-empty string, each with the
    parameter's value; a parameter that is [None] or the empty string
    leaves its field out of the body, and no other key is sent. *)
Theorem update_body_fields :
  forall py_repr config auth rem (p : UpdateCatalogTaskParams) req rep,
    In (req, rep) (snd (run (update_catalog_task py_repr config auth p) rem)) ->
    req_method req = PUT ->
    exists body,
      req_json req = Some body /\
      NoDup (keys body) /\
      (forall f, In f (keys body) <-> populated (update_param p f)) /\
      (forall f s, update_param p f = Some s -> s <> "" ->
                   dict_get body f = Some (PyStr s)) /\
      (forall f, update_param p f = None \/ update_param p f = Some "" ->
                 dict_get body f = None).
Proof.
  intros repr config auth rem p req rep Hin Hput.
  assert (Hreq : req_json req = Some (update_data p)).
  { destruct (is_sys_id (up_task_id p)) eqn:S.
    - rewrite update_run_sys_id in Hin by assumption. cbv zeta in Hin.
      destruct Hin as [E | []]. injection E as <- _. reflexivity.
    - rewrite update_run_number in Hin by assumption. cbv zeta in Hin.
      set (g := update_number_request config auth (up_task_id p)) in *.
      assert (Hg : (g, rem [] g) <> (req, rep)).
      { intros E. injection E as <- _. discriminate. }
      destruct (reply_json (rem [] g)) as [data|[]];
        try (destruct Hin as [E | []]; contradiction).
      destruct (resolved_url_of repr config (up_task_id p) data) as [[r|url]|e];
        try (destruct Hin as [E | []]; contradiction).
      destruct Hin as [E | [E | []]]; [contradiction|].
      injection E as <- _. reflexivity. }
  exists (update_data p). split; [assumption|].
  split; [apply update_data_nodup|]. repeat split.
  - intros H. apply dict_get_keys in H. rewrite update_data_get in H.
    destruct (str_truthy (update_param p f)) eqn:T; [|congruence].
    now apply str_truthy_populated.
  - intros H. apply dict_get_keys. rewrite update_data_get.
    apply str_truthy_populated in H. rewrite H. discriminate.
  - intros f s E N. rewrite update_data_get, E. simpl.
    apply String.eqb_neq in N. now rewrite N.
  - intros f H. rewrite update_data_get.
    apply str_truthy_false in H. now rewrite H.
Qed.

Lemma update_body_fields_witness :
  exists body,
    req_json (put_request test_config test_auth
                "https://test.service-now.com/api/now/table/sc_task/task123"
                test_update_params) = Some body /\
    NoDup (keys body) /\
    (forall f, In f (keys body) <-> populated (update_param test_update_params f)) /\
    (forall f s, update_param test_update_params f = Some s -> s <> "" ->
                 dict_get body f = Some (PyStr s)) /\
    (forall f, update_param test_update_params f = None \/
               update_param test_update_params f = Some "" ->
               dict_get body f = None).
Proof.
  eapply (update_body_fields repr_unused test_config test_auth test_update_remote
            test_update_params).
  - right. left. reflexivity.
  - reflexivity.
Defined.

Example test_update_body :
  update_data test_update_params
  = [("state", PyStr "3"); ("work_notes", PyStr "Updated notes")].
Proof. reflexivity. Qed.

(** * Keys of the normalized task *)

Lemma field_missing d k : dict_get d k = None -> field d k = PyNone.
Proof. unfold field. now intros ->. Qed.

Lemma list_task_missing rec task :
  list_task (PyDict rec) = Returned (PyDict task) ->
  forall k, In k list_task_keys ->
    dict_get rec (source_key k) = None -> dict_get task k = Some PyNone.
Proof.
  rewrite list_task_dict. intros E. injection E as <-.
  intros k Hk. unfold list_task_keys in Hk. simpl in Hk.
  repeat (destruct Hk as [<- | Hk];
          [unfold source_key; simpl; intros H;
           rewrite (field_missing _ _ H); reflexivity|]).
  contradiction.
Qed.

Lemma get_task_missing rec task :
  get_task (PyDict rec) = Returned (PyDict task) ->
  forall k, In k get_task_keys ->
    dict_get rec (source_key k) = None -> dict_get task k = Some PyNone.
Proof.
  rewrite get_task_dict. intros E. injection E as <-.
  intros k Hk. unfold get_task_keys, list_task_keys in Hk. simpl in Hk.
  repeat (destruct Hk as [<- | Hk];
          [unfold source_key; simpl; intros H;
           rewrite (field_missing _ _ H); reflexivity|]).
  contradiction.
Qed.

(** Every task in the result of a listing has the thirteen keys. *)
Lemma list_result_keys config auth rem p v :
  fst (run (list_catalog_tasks config auth p) rem) = Returned v ->
  exists b msg tasks,
    v = PyDict [("success", PyBool b); ("message", PyStr msg);
                ("tasks", PyList (map PyDict tasks))] /\
    Forall (fun t => keys t = list_task_keys) tasks.
Proof.
  rewrite list_run. cbv zeta. simpl. unfold list_outcome.
  destruct (reply_json _) as [data|e] eqn:R.
  - unfold list_tasks_of.
    destruct (py_get data "result" (PyList [])) as [result|]; [|discriminate].
    cbn [obind]. destruct (py_iter result) as [items|]; [|discriminate].
    cbn [obind].
    assert (H : forall ts, for_each list_task items = Returned ts ->
                exists tasks, ts = map PyDict tasks /\
                  Forall (fun t => keys t = list_task_keys) tasks).
    { clear. induction items as [|x items IH]; simpl; intros ts E.
      - injection E as <-. exists []. split; [reflexivity | constructor].
      - destruct (list_task x) as [t|] eqn:T; [|discriminate]. cbn [obind] in E.
        destruct (for_each list_task items) as [ts'|]; [|discriminate].
        cbn [obind] in E. injection E as <-.
        destruct (IH ts' eq_refl) as (tasks & -> & F).
        destruct x; try discriminate.
        rewrite list_task_dict in T. injection T as <-.
        eexists (_ :: tasks). split; [reflexivity|].
        constructor; [reflexivity | assumption]. }
    destruct (for_each list_task items) as [ts|]; [|discriminate].
    cbn [obind]. intros E. injection E as <-.
    destruct (H ts eq_refl) as (tasks & -> & F). eauto 6.
  - destruct (reply_json_raised _ _ R) as [m ->].
    intros E. injection E as <-.
    exists false, ("Failed to list catalog tasks: " ++ m), [].
    split; [reflexivity | constructor].
Qed.

(** The task in the result of a lookup has the fifteen keys. *)
Lemma get_result_keys repr config auth rem p v task :
  fst (run (get_catalog_task repr config auth p) rem) = Returned v ->
  (exists d, v = PyDict d /\ dict_get d "task" = Some task) ->
  exists t, task = PyDict t /\ keys t = get_task_keys.
Proof.
  rewrite get_run. cbv zeta. simpl. unfold get_outcome.
  assert (Hfound : forall td,
             get_found repr (gp_task_id p) td = Returned v ->
             (exists d, v = PyDict d /\ dict_get d "task" = Some task) ->
             exists t, task = PyDict t /\ keys t = get_task_keys).
  { intros td. destruct td; try discriminate.
    unfold get_found. rewrite get_task_dict. simpl.
    intros E (d' & -> & Ht). injection E as <-. simpl in Ht.
    injection Ht as <-. eexists. split; reflexivity. }
  assert (Hnf : forall tid, Returned (not_found_dict tid) = Returned v ->
             (exists d, v = PyDict d /\ dict_get d "task" = Some task) ->
             exists t, task = PyDict t /\ keys t = get_task_keys).
  { intros tid E (d & -> & Ht). injection E as <-. discriminate. }
  destruct (reply_json _) as [data|e] eqn:R.
  - destruct (is_sys_id (gp_task_id p)).
    + unfold record_of.
      destruct (py_get data "result" (PyDict [])) as [td|]; [|discriminate].
      cbn [obind]. destruct (negb (truthy td)); cbn [obind finish_get].
      * apply Hnf.
      * apply Hfound.
    + unfold first_row_of.
      destruct (py_get data "result" (PyList [])) as [result|]; [|discriminate].
      cbn [obind]. destruct (negb (truthy result)); cbn [obind].
      * apply Hnf.
      * destruct (py_index0 result) as [td|]; [|discriminate].
        cbn [obind finish_get]. apply Hfound.
  - destruct (reply_json_raised _ _ R) as [m ->].
    intros E (d & -> & Ht). injection E as <-. discriminate.
Qed.

(** C10. For every remote record, the task built by [list_catalog_tasks]
    has exactly the keys [sys_id], [number], [short_description],
    [description], [state], [assigned_to], [assignment_group], [request],
    [request_sys_id], [created_on], [updated_on], [due_date], [priority],
    and the task built by [get_catalog_task] has those and [work_notes],
    [close_notes].  Fields of the record outside these are dropped, and a
    key whose field is missing from the record holds [None].  This holds
    of the handlers' results: a listing whose reply carries records
    returns one such task per record, in order, and a lookup whose reply
    carries a record returns such a task for it; and no task in any result
    of the two handlers has another key set. *)
Theorem normalized_task_keys :
  forall py_repr config auth rem,
    (forall rec : dict,
       exists task,
         list_task (PyDict rec) = Returned (PyDict task) /\
         keys task = list_task_keys /\
         (forall k, In k list_task_keys ->
                    dict_get rec (source_key k) = None ->
                    dict_get task k = Some PyNone)) /\
    (forall rec : dict,
       exists task,
         get_task (PyDict rec) = Returned (PyDict task) /\
         keys task = get_task_keys /\
         (forall k, In k get_task_keys ->
                    dict_get rec (source_key k) = None ->
                    dict_get task k = Some PyNone)) /\
    (forall p,
       match fst (run (list_catalog_tasks config auth p) rem) with
       | Returned v =>
           exists b msg tasks,
             v = PyDict [("success", PyBool b); ("message", PyStr msg);
                         ("tasks", PyList (map PyDict tasks))] /\
             Forall (fun t => keys t = list_task_keys) tasks
       | Raised _ => True
       end) /\
    (forall p,
       match fst (run (get_catalog_task py_repr config auth p) rem) with
       | Returned (PyDict d) =>
           match dict_get d "task" with
           | Some task => exists t, task = PyDict t /\ keys t = get_task_keys
           | None => True
           end
       | _ => True
       end) /\
    (forall p req rep body recs,
       snd (run (list_catalog_tasks config auth p) rem) = [(req, rep)] ->
       reply_json rep = Returned body ->
       py_get body "result" (PyList []) = Returned (PyList (map PyDict recs)) ->
       exists msg tasks,
         fst (run (list_catalog_tasks config auth p) rem)
         = Returned (PyDict [("success", PyBool true);
                             ("message", PyStr msg);
                             ("tasks", PyList (map PyDict tasks))]) /\
         Forall2 (normalized_keys list_task_keys) recs tasks) /\
    (forall p req rep body rec,
       snd (run (get_catalog_task py_repr config auth p) rem) = [(req, rep)] ->
       reply_json rep = Returned body ->
       fetched_record (gp_task_id p) body rec ->
       exists msg task,
         fst (run (get_catalog_task py_repr config auth p) rem)
         = Returned (PyDict [("success", PyBool true);
                             ("message", PyStr msg);
                             ("task", PyDict task)]) /\
         normalized_keys get_task_keys rec task).
Proof.
  intros repr config auth rem.
  split; [|split; [|split; [|split; [|split]]]].
  - intros rec. eexists. split; [apply list_task_dict|].
    split; [reflexivity|]. apply list_task_missing. apply list_task_dict.
  - intros rec. eexists. split; [apply get_task_dict|].
    split; [reflexivity|]. apply get_task_missing. apply get_task_dict.
  - intros p.
    destruct (fst (run (list_catalog_tasks config auth p) rem)) as [v|e] eqn:E;
      [|exact I].
    eapply list_result_keys. exact E.
  - intros p.
    destruct (fst (run (get_catalog_task repr config auth p) rem)) as [v|e] eqn:E;
      [|exact I].
    destruct v; try exact I.
    destruct (dict_get d "task") as [task|] eqn:T; [|exact I].
    eapply get_result_keys; [exact E|]. eauto.
  - intros p req rep body recs L R G.
    destruct (list_returns_on_records config auth rem p req rep body recs L R G)
      as (tasks & E & F).
    eexists _, tasks. split; [exact E|].
    eapply Forall2_impl; [|exact F]. intros r t T. cbv beta in T. split.
    + rewrite list_task_dict in T. injection T as <-. reflexivity.
    + now apply list_task_missing.
  - intros p req rep body rec L R F.
    destruct (get_returns_on_record repr config auth rem p req rep body rec L R F)
      as (task & E & T).
    eexists _, task. split; [exact E|]. split.
    + rewrite get_task_dict in T. injection T as <-. reflexivity.
    + now apply get_task_missing.
Qed.

Lemma normalized_task_keys_witness :
  (exists msg task,
     fst (run (list_catalog_tasks test_config test_auth test_list_params)
              sample_rows_remote)
     = Returned (PyDict [("success", PyBool true);
                         ("message", PyStr msg);
                         ("tasks", PyList [PyDict task])]) /\
     keys task = list_task_keys /\
     dict_get task "description" = Some PyNone /\
     dict_get task "u_custom" = None) /\
  (exists msg task,
     fst (run (get_catalog_task repr_unused test_config test_auth
                 {| gp_task_id := sample_sys_id |}) sample_record_remote)
     = Returned (PyDict [("success", PyBool true);
                         ("message", PyStr msg);
                         ("task", PyDict task)]) /\
     keys task = get_task_keys /\
     dict_get task "close_notes" = Some PyNone).
Proof.
  destruct (normalized_task_keys repr_unused test_config test_auth
              sample_rows_remote) as (_ & _ & _ & _ & HL & _).
  destruct (normalized_task_keys repr_unused test_config test_auth
              sample_record_remote) as (_ & _ & _ & _ & _ & HG).
  split.
  - destruct (HL test_list_params _ _ _ [sample_record] eq_refl eq_refl eq_refl)
      as (msg & tasks & E & F).
    inversion F as [|r t rs ts [K H] F' Er Et]; subst.
    inversion F'; subst.
    exists msg, t. split; [exact E|]. split; [exact K|]. split.
    + apply H; [simpl; tauto | reflexivity].
    + destruct (dict_get t "u_custom") eqn:G; [|reflexivity].
      assert (In "u_custom" (keys t)) as Hin
        by (apply dict_get_keys; rewrite G; discriminate).
      rewrite K in Hin. simpl in Hin.
      repeat (destruct Hin as [Hin | Hin]; [discriminate|]). contradiction.
  - destruct (HG {| gp_task_id := sample_sys_id |} _ _ _ sample_record
                eq_refl eq_refl) as (msg & task & E & K & H).
    + split; [reflexivity | discriminate].
    + exists msg, task. split; [exact E|]. split; [exact K|].
      apply H; [simpl; tauto | reflexivity].
Defined.

Example sample_record_normalized :
  list_task (PyDict sample_record)
  = Returned (PyDict [
      ("sys_id", PyStr "task123");
      ("number", PyStr "SCTASK0001639213");
      ("short_description", PyStr "Test Task");
      ("description", PyNone);
      ("state", PyNone);
      ("assigned_to", PyStr "Abel Tuter");
      ("assignment_group", PyStr "group123");
      ("request", PyStr "REQ123");
      ("request_sys_id", PyStr "req456");
      ("created_on", PyNone);
      ("updated_on", PyNone);
      ("due_date", PyNone);
      ("priority", PyNone)]).
Proof. reflexivity. Qed.

(** * Further properties of the session entry point *)

(** X1. [handle_sse] answers 400 exactly when one of the three headers is
    missing or is the empty string; an empty value is refused like a
    missing one, and nothing else is done for such a request. *)
Theorem blank_header_rejected :
  forall request : ServerSse.Request,
    (header_unusable request "X-ServiceNow-Instance-URL" \/
     header_unusable request "X-ServiceNow-Username" \/
     header_unusable request "X-ServiceNow-Password")
    <-> ServerSse.handle_sse request = (Some missing_headers_response, []).
Proof.
  intros request. unfold header_unusable, ServerSse.handle_sse, ServerSse.py_all.
  simpl forallb. rewrite <- !str_truthy_false.
  destruct (str_truthy (ServerSse.headers_get request "X-ServiceNow-Instance-URL")),
    (str_truthy (ServerSse.headers_get request "X-ServiceNow-Username")),
    (str_truthy (ServerSse.headers_get request "X-ServiceNow-Password")); simpl;
    split; intros H; try reflexivity; try discriminate; auto.
  destruct H as [H | [H | H]]; discriminate.
Qed.

(** X2. When the three headers are present and non-empty, [handle_sse]
    returns no JSON response and does three things in this order: it
    creates one MCP instance from exactly the header values, opens the
    event stream, and runs the protocol server. *)
Theorem session_created_from_headers :
  forall (request : ServerSse.Request) url user pw,
    ServerSse.headers_get request "X-ServiceNow-Instance-URL" = Some url ->
    ServerSse.headers_get request "X-ServiceNow-Username" = Some user ->
    ServerSse.headers_get request "X-ServiceNow-Password" = Some pw ->
    url <> "" -> user <> "" -> pw <> "" ->
    ServerSse.handle_sse request
    = (None,
       [ServerSse.CreateMcpInstance (Some url) (Some user) (Some pw);
        ServerSse.ConnectSse; ServerSse.RunMcpServer]).
Proof.
  intros request url user pw Hu Hn Hp Nu Nn Np.
  unfold ServerSse.handle_sse, ServerSse.py_all. rewrite Hu, Hn, Hp. simpl.
  apply String.eqb_neq in Nu, Nn, Np. rewrite Nu, Nn, Np. reflexivity.
Qed.

Lemma session_created_from_headers_witness :
  ServerSse.handle_sse request_with_credentials
  = (None,
     [ServerSse.CreateMcpInstance (Some "https://test.service-now.com")
        (Some "admin") (Some "secret");
      ServerSse.ConnectSse; ServerSse.RunMcpServer]).
Proof.
  apply (session_created_from_headers request_with_credentials);
    try reflexivity; discriminate.
Defined.

(** * Further properties of the requests *)

Lemma list_request_well_formed config auth p :
  request_well_formed config auth (list_request config auth p).
Proof.
  unfold request_well_formed, list_request. simpl. repeat split.
  - now left.
  - discriminate.
Qed.

Lemma get_request_well_formed config auth tid :
  request_well_formed config auth
    (if is_sys_id tid then get_record_request config auth tid
     else get_number_request config auth tid).
Proof.
  unfold request_well_formed.
  destruct (is_sys_id tid); simpl; repeat split; try discriminate.
  - right. now exists tid.
  - now left.
Qed.

Lemma update_number_request_well_formed config auth tid :
  request_well_formed config auth (update_number_request config auth tid).
Proof.
  unfold request_well_formed. simpl. repeat split; try discriminate.
  now left.
Qed.

Lemma put_request_well_formed config auth tid p :
  request_well_formed config auth
    (put_request config auth (api_url config ++ "/table/sc_task/" ++ tid) p).
Proof.
  unfold request_well_formed. simpl. repeat split; try discriminate.
  now exists tid.
Qed.

Lemma resolved_url_of_continue repr config tid data url :
  resolved_url_of repr config tid data = Returned (Continue url) ->
  exists result first sid,
    py_get data "result" (PyList []) = Returned result /\
    truthy result = true /\
    py_index0 result = Returned first /\
    py_get first "sys_id" PyNone = Returned sid /\
    url = api_url config ++ "/table/sc_task/" ++ py_str repr sid.
Proof.
  unfold resolved_url_of.
  destruct (py_get data "result" (PyList [])) as [result|]; [|discriminate].
  cbn [obind]. destruct (truthy result) eqn:T; simpl negb; cbv iota.
  - destruct (py_index0 result) as [first|] eqn:I; [|discriminate]. cbn [obind].
    destruct (py_get first "sys_id" PyNone) as [sid|] eqn:G; [|discriminate].
    cbn [obind]. intros E. injection E as <-.
    exists result, first, sid. repeat split; assumption.
  - rewrite failed_response_eq. cbn [obind]. discriminate.
Qed.

(** X3. Every request sent by the three handlers carries the headers of the
    authentication manager and the configured timeout.  A GET goes to
    [<api_url>/table/sc_task] itself or to [<api_url>/table/sc_task/<id>],
    with query parameters and no JSON body; a PUT goes to
    [<api_url>/table/sc_task/<id>], with a JSON body and no query
    parameters. *)
Theorem requests_well_formed :
  forall py_repr config auth rem,
    (forall p, Forall (request_well_formed config auth)
                 (requests_of (snd (run (list_catalog_tasks config auth p) rem)))) /\
    (forall p, Forall (request_well_formed config auth)
                 (requests_of (snd (run (get_catalog_task py_repr config auth p) rem)))) /\
    (forall p, Forall (request_well_formed config auth)
                 (requests_of (snd (run (update_catalog_task py_repr config auth p) rem)))).
Proof.
  intros repr config auth rem. repeat split; intros p.
  - rewrite list_run. cbv zeta. simpl.
    constructor; [apply list_request_well_formed | constructor].
  - rewrite get_run. cbv zeta. simpl.
    constructor; [apply get_request_well_formed | constructor].
  - destruct (is_sys_id (up_task_id p)) eqn:S.
    + rewrite update_run_sys_id by assumption. cbv zeta. simpl.
      constructor; [apply put_request_well_formed | constructor].
    + rewrite update_run_number by assumption. cbv zeta.
      set (g := update_number_request config auth (up_task_id p)).
      assert (Hg : request_well_formed config auth g)
        by apply update_number_request_well_formed.
      destruct (reply_json (rem [] g)) as [data|[]]; simpl;
        try solve [constructor; [exact Hg | constructor]].
      destruct (resolved_url_of repr config (up_task_id p) data)
        as [[r|url]|e] eqn:E; simpl;
        try solve [constructor; [exact Hg | constructor]].
      apply resolved_url_of_continue in E.
      destruct E as (result & first & sid & _ & _ & _ & _ & ->).
      constructor; [exact Hg|].
      constructor; [apply put_request_well_formed | constructor].
Qed.

(** X4. The listing passes [limit] and [offset] through unchanged, whatever
    their values and whatever filters are set, always asks for display
    values without reference links, and sends no parameter besides these
    four and [sysparm_query]. *)
Theorem pagination_passed_through :
  forall config auth rem (p : ListCatalogTasksParams),
  exists req rep qp,
    snd (run (list_catalog_tasks config auth p) rem) = [(req, rep)] /\
    req_params req = Some qp /\
    dict_get qp "sysparm_limit" = Some (PyInt (lp_limit p)) /\
    dict_get qp "sysparm_offset" = Some (PyInt (lp_offset p)) /\
    dict_get qp "sysparm_display_value" = Some (PyStr "true") /\
    dict_get qp "sysparm_exclude_reference_link" = Some (PyStr "true") /\
    incl (keys qp)
      ["sysparm_limit"; "sysparm_offset"; "sysparm_display_value";
       "sysparm_exclude_reference_link"; "sysparm_query"].
Proof.
  intros config auth rem p. rewrite list_run. cbv zeta.
  eexists _, _, _. split; [reflexivity|]. split; [reflexivity|].
  unfold list_query_params. cbv zeta.
  destruct (list_filters p) as [|f fs]; simpl; repeat split;
    intros k Hk; simpl in *; tauto.
Qed.

(** * Further properties of the listing *)

Lemma list_task_copies rec task :
  list_task (PyDict rec) = Returned (PyDict task) -> copies_plain_fields rec task.
Proof.
  rewrite list_task_dict. intros E. injection E as <-.
  intros k Hk. unfold plain_keys in Hk. simpl in Hk.
  repeat (destruct Hk as [<- | Hk]; [reflexivity|]). contradiction.
Qed.

Lemma get_task_copies rec task :
  get_task (PyDict rec) = Returned (PyDict task) -> copies_plain_fields rec task.
Proof.
  rewrite get_task_dict. intros E. injection E as <-.
  intros k Hk. unfold plain_keys in Hk. simpl in Hk.
  repeat (destruct Hk as [<- | Hk]; [reflexivity|]). contradiction.
Qed.

(** X5. When the reply to the listing carries a list of records, the
    result holds one task per record, in the same order; the message is
    [Found <n> catalog tasks] with [n] the number of records; and in every
    task [sys_id], [number], [short_description], [description], [state],
    [due_date], [priority] are the record's fields as they came, while
    [created_on] and [updated_on] are its [sys_created_on] and
    [sys_updated_on] ([None] for a field the record lacks). *)
Theorem listing_copies_records :
  forall config auth rem p req rep body recs,
    snd (run (list_catalog_tasks config auth p) rem) = [(req, rep)] ->
    reply_json rep = Returned body ->
    py_get body "result" (PyList []) = Returned (PyList (map PyDict recs)) ->
    exists tasks,
      fst (run (list_catalog_tasks config auth p) rem)
      = Returned (PyDict [
          ("success", PyBool true);
          ("message", PyStr ("Found " ++ str_of_nat (List.length recs)
                             ++ " catalog tasks"));
          ("tasks", PyList (map PyDict tasks))]) /\
      Forall2 copies_plain_fields recs tasks.
Proof.
  intros config auth rem p req rep body recs L R G.
  destruct (list_returns_on_records config auth rem p req rep body recs L R G)
    as (tasks & E & F).
  exists tasks. split; [exact E|].
  eapply Forall2_impl; [|exact F]. intros r t. apply list_task_copies.
Qed.

Lemma listing_copies_records_witness :
  exists task,
    fst (run (list_catalog_tasks test_config test_auth test_list_params)
             test_list_remote)
    = Returned (PyDict [
        ("success", PyBool true);
        ("message", PyStr "Found 1 catalog tasks");
        ("tasks", PyList [PyDict task])]) /\
    dict_get task "number" = Some (PyStr "SCTASK0001639213") /\
    dict_get task "short_description" = Some (PyStr "Test Task") /\
    dict_get task "created_on" = Some (PyStr "2023-01-01 12:00:00").
Proof.
  destruct (listing_copies_records test_config test_auth test_list_remote
              test_list_params _ _ _ [test_record] eq_refl eq_refl eq_refl)
    as (tasks & E & F).
  inversion F as [|r t rs ts C F' Er Et]; subst.
  inversion F'; subst. exists t. split; [exact E|].
  split; [|split]; rewrite C by (simpl; tauto); reflexivity.
Defined.

Lemma for_each_list_task_bad_row items x :
  In x items -> isinstance_dict x = false ->
  for_each list_task items = Raised AttributeError.
Proof.
  induction items as [|y items IH]; simpl; [contradiction|].
  intros [-> | Hin] Hx.
  - now rewrite list_task_not_dict.
  - destruct (list_task_cases y) as [(t & ->) | ->]; simpl; [|reflexivity].
    now rewrite IH.
Qed.

(** X6. One row that is not an object aborts the whole listing: when the
    decoded [result] list holds such an item, [list_catalog_tasks] raises
    [AttributeError] to its caller and returns nothing, not even the tasks
    of the rows that are records. *)
Theorem malformed_row_aborts_listing :
  forall config auth rem p req rep body items x,
    snd (run (list_catalog_tasks config auth p) rem) = [(req, rep)] ->
    reply_json rep = Returned body ->
    py_get body "result" (PyList []) = Returned (PyList items) ->
    In x items -> isinstance_dict x = false ->
    fst (run (list_catalog_tasks config auth p) rem) = Raised AttributeError.
Proof.
  intros config auth rem p req rep body items x.
  rewrite list_run. cbv zeta. simpl. intros L R G Hin Hx.
  injection L as _ <-. unfold list_outcome. rewrite R.
  unfold list_tasks_of. rewrite G. simpl.
  now rewrite (for_each_list_task_bad_row items x Hin Hx).
Qed.

Lemma malformed_row_aborts_listing_witness :
  fst (run (list_catalog_tasks test_config test_auth test_list_params)
           bad_row_remote) = Raised AttributeError.
Proof.
  eapply (malformed_row_aborts_listing test_config test_auth bad_row_remote
            test_list_params _ _ _ _ (PyStr "oops"));
    [reflexivity | reflexivity | reflexivity | right; left; reflexivity
    | reflexivity].
Defined.

(** X7. An empty table is not a failure: when the decoded body is an
    object whose [result] is the empty list, or that has no [result] key at
    all, the listing returns [success = True], the message
    [Found 0 catalog tasks] and an empty [tasks] list. *)
Theorem empty_listing_succeeds :
  forall config auth rem p req rep body,
    snd (run (list_catalog_tasks config auth p) rem) = [(req, rep)] ->
    reply_json rep = Returned (PyDict body) ->
    dict_get body "result" = None \/ dict_get body "result" = Some (PyList []) ->
    fst (run (list_catalog_tasks config auth p) rem)
    = Returned (PyDict [
        ("success", PyBool true);
        ("message", PyStr "Found 0 catalog tasks");
        ("tasks", PyList [])]).
Proof.
  intros config auth rem p req rep body.
  rewrite list_run. cbv zeta. simpl. intros L R H.
  injection L as _ <-. unfold list_outcome. rewrite R.
  unfold list_tasks_of. simpl. destruct H as [-> | ->]; reflexivity.
Qed.

Lemma empty_listing_succeeds_witness :
  fst (run (list_catalog_tasks test_config test_auth test_list_params)
           no_result_remote)
  = Returned (PyDict [
      ("success", PyBool true);
      ("message", PyStr "Found 0 catalog tasks");
      ("tasks", PyList [])]).
Proof.
  eapply (empty_listing_succeeds test_config test_auth no_result_remote
            test_list_params);
    [reflexivity | reflexivity | left; reflexivity].
Defined.

(** X8. The default of [data.get("result", [])] serves a missing key only:
    when the body carries [result] with the value [None], a boolean or a
    number, the loop over it raises [TypeError], which the handler does not
    catch. *)
Theorem null_result_raises :
  forall config auth rem p req rep body result,
    snd (run (list_catalog_tasks config auth p) rem) = [(req, rep)] ->
    reply_json rep = Returned (PyDict body) ->
    dict_get body "result" = Some result ->
    (result = PyNone \/ (exists b, result = PyBool b) \/
     (exists z, result = PyInt z) \/ (exists f, result = PyFloat f)) ->
    fst (run (list_catalog_tasks config auth p) rem) = Raised TypeError.
Proof.
  intros config auth rem p req rep body result.
  rewrite list_run. cbv zeta. simpl. intros L R G H.
  injection L as _ <-. unfold list_outcome. rewrite R.
  unfold list_tasks_of. simpl. rewrite G.
  destruct H as [-> | [[b ->] | [[z ->] | [f ->]]]]; reflexivity.
Qed.

Lemma null_result_raises_witness :
  fst (run (list_catalog_tasks test_config test_auth test_list_params)
           null_result_remote) = Raised TypeError.
Proof.
  eapply (null_result_raises test_config test_auth null_result_remote
            test_list_params);
    [reflexivity | reflexivity | reflexivity | left; reflexivity].
Defined.

(** * Further properties of the lookup *)

(** X9. A lookup whose reply decodes but carries nothing is answered with
    the not-found result: by number when [result] is missing, the empty
    list or otherwise false; by sys_id when [result] is missing, the empty
    object or otherwise false.  The result is
    [{"success": False, "message": "Catalog task not found: <task_id>"}],
    with no [task] key. *)
Theorem lookup_not_found :
  forall py_repr config auth rem p req rep body result,
    snd (run (get_catalog_task py_repr config auth p) rem) = [(req, rep)] ->
    reply_json rep = Returned body ->
    py_get body "result"
      (if is_sys_id (gp_task_id p) then PyDict [] else PyList [])
    = Returned result ->
    truthy result = false ->
    fst (run (get_catalog_task py_repr config auth p) rem)
    = Returned (PyDict [
        ("success", PyBool false);
        ("message", PyStr ("Catalog task not found: " ++ gp_task_id p))]).
Proof.
  intros repr config auth rem p req rep body result.
  rewrite get_run. cbv zeta. simpl. intros L R G T.
  injection L as _ <-. unfold get_outcome. rewrite R.
  destruct (is_sys_id (gp_task_id p)).
  - unfold record_of. rewrite G. cbn [obind]. rewrite T. reflexivity.
  - unfold first_row_of. rewrite G. cbn [obind]. rewrite T. reflexivity.
Qed.

Lemma lookup_not_found_witness :
  fst (run (get_catalog_task repr_unused test_config test_auth
              {| gp_task_id := "SCTASK0000000000" |}) not_found_remote)
  = Returned (PyDict [
      ("success", PyBool false);
      ("message", PyStr "Catalog task not found: SCTASK0000000000")]).
Proof.
  eapply (lookup_not_found repr_unused test_config test_auth not_found_remote
            {| gp_task_id := "SCTASK0000000000" |});
    reflexivity.
Defined.

(** X10. A lookup by number is answered from the first row alone, however
    many rows the reply carries.  The message names the row's [number]
    when it is a string and falls back on the requested identifier when
    the row has no [number]; the plain fields of the task are those of the
    row, and [work_notes] and [close_notes] are carried along. *)
Theorem lookup_by_number_uses_first_row :
  forall py_repr config auth rem p req rep body rec rest,
    ~ sys_id_shaped (gp_task_id p) ->
    snd (run (get_catalog_task py_repr config auth p) rem) = [(req, rep)] ->
    reply_json rep = Returned body ->
    py_get body "result" (PyList []) = Returned (PyList (PyDict rec :: rest)) ->
    exists msg task,
      fst (run (get_catalog_task py_repr config auth p) rem)
      = Returned (PyDict [("success", PyBool true);
                          ("message", PyStr msg);
                          ("task", PyDict task)]) /\
      (forall n, dict_get rec "number" = Some (PyStr n) ->
                 msg = "Catalog task " ++ n ++ " found") /\
      (dict_get rec "number" = None ->
       msg = "Catalog task " ++ gp_task_id p ++ " found") /\
      copies_plain_fields rec task /\
      dict_get task "work_notes" = Some (field rec "work_notes") /\
      dict_get task "close_notes" = Some (field rec "close_notes").
Proof.
  intros repr config auth rem p req rep body rec rest N L R G.
  apply is_sys_id_not_shaped in N.
  assert (F : fetched_record (gp_task_id p) body rec).
  { unfold fetched_record. rewrite N. now exists rest. }
  destruct (get_returns_on_record repr config auth rem p req rep body rec L R F)
    as (task & E & T).
  eexists _, task. split; [exact E|].
  split; [intros n Hn; now rewrite Hn|].
  split; [intros Hn; now rewrite Hn|].
  split; [now apply get_task_copies|].
  rewrite get_task_dict in T. injection T as <-. split; reflexivity.
Qed.

Lemma lookup_by_number_uses_first_row_witness :
  exists task,
    fst (run (get_catalog_task repr_unused test_config test_auth sample_get_params)
             bad_row_remote)
    = Returned (PyDict [("success", PyBool true);
                        ("message", PyStr "Catalog task SCTASK0001639213 found");
                        ("task", PyDict task)]) /\
    dict_get task "short_description" = Some (PyStr "Test Task") /\
    dict_get task "work_notes" = Some PyNone.
Proof.
  assert (N : ~ sys_id_shaped (gp_task_id sample_get_params)).
  { intros [L _]. simpl in L. discriminate. }
  destruct (lookup_by_number_uses_first_row repr_unused test_config test_auth
              bad_row_remote sample_get_params _ _ _ test_record
              [PyStr "oops"] N eq_refl eq_refl eq_refl)
    as (msg & task & E & Hn & _ & C & W & _).
  exists task. rewrite (Hn "SCTASK0001639213" eq_refl) in E.
  split; [exact E|]. split; [|exact W].
  rewrite C by (simpl; tauto). reflexivity.
Defined.



(** X12. When what the lookup fetched is not an object (the first row of a
    query by number, or the [result] of a direct fetch), building the task
    raises [AttributeError], which [get_catalog_task] does not catch. *)
Theorem lookup_of_non_object_raises :
  forall py_repr config auth rem p req rep body td,
    snd (run (get_catalog_task py_repr config auth p) rem) = [(req, rep)] ->
    reply_json rep = Returned body ->
    fetched_value (gp_task_id p) body td ->
    isinstance_dict td = false ->
    fst (run (get_catalog_task py_repr config auth p) rem) = Raised AttributeError.
Proof.
  intros repr config auth rem p req rep body td.
  rewrite get_run. cbv zeta. simpl. intros L R F Hd.
  injection L as _ <-. unfold get_outcome. rewrite R.
  unfold fetched_value in F.
  assert (Hf : get_found repr (gp_task_id p) td = Raised AttributeError).
  { unfold get_found. now rewrite get_task_not_dict. }
  destruct (is_sys_id (gp_task_id p)).
  - destruct F as [G T]. unfold record_of. rewrite G. cbn [obind].
    rewrite T. exact Hf.
  - destruct F as (result & G & T & I). unfold first_row_of. rewrite G.
    cbn [obind]. rewrite T. simpl negb. cbv iota. rewrite I. exact Hf.
Qed.

Lemma lookup_of_non_object_raises_witness :
  fst (run (get_catalog_task repr_unused test_config test_auth
              {| gp_task_id := sample_sys_id |}) test_list_remote)
  = Raised AttributeError.
Proof.
  eapply (lookup_of_non_object_raises repr_unused test_config test_auth
            test_list_remote {| gp_task_id := sample_sys_id |});
    [reflexivity | reflexivity | split; reflexivity | reflexivity].
Defined.

(** * Further properties of the update *)

(** X13. When the identifier is a number and the GET that resolves it
    fails, [update_catalog_task] stops there: no PUT is sent and the
    response is [success = False] with the message
    [Failed to find catalog task: <error>]. *)
Theorem failed_resolution_sends_no_put :
  forall py_repr config auth rem (p : UpdateCatalogTaskParams) g rg rest msg,
    ~ sys_id_shaped (up_task_id p) ->
    snd (run (update_catalog_task py_repr config auth p) rem) = (g, rg) :: rest ->
    failure_of rg = Some msg ->
    rest = [] /\
    req_method g = GET /\
    fst (run (update_catalog_task py_repr config auth p) rem)
    = Returned (failed ("Failed to find catalog task: " ++ msg)).
Proof.
  intros repr config auth rem p g rg rest msg N.
  apply is_sys_id_not_shaped in N.
  rewrite update_run_number by assumption. cbv zeta.
  set (g0 := update_number_request config auth (up_task_id p)).
  destruct (reply_json (rem [] g0)) as [data|e] eqn:R.
  - pose proof (reply_json_returned _ _ R) as NF.
    destruct (resolved_url_of repr config (up_task_id p) data) as [[r|url]|e];
      simpl; intros L F; injection L as <- <-; congruence.
  - destruct (reply_json_raised _ _ R) as [m ->]. simpl.
    intros L F. injection L as <- <- <-.
    apply failure_of_reply_json in F. rewrite R in F. injection F as ->.
    repeat split.
Qed.

Lemma failed_resolution_sends_no_put_witness :
  List.length (snd (run (update_catalog_task repr_unused test_config test_auth
                           test_update_params) failing_remote)) = 1 /\
  fst (run (update_catalog_task repr_unused test_config test_auth
              test_update_params) failing_remote)
  = Returned (failed "Failed to find catalog task: connection refused").
Proof.
  assert (N : ~ sys_id_shaped (up_task_id test_update_params)).
  { intros [L _]. simpl in L. discriminate. }
  destruct (failed_resolution_sends_no_put repr_unused test_config test_auth
              failing_remote test_update_params _ _ _ "connection refused"
              N eq_refl eq_refl) as (_ & _ & E).
  split; [reflexivity | exact E].
Defined.

Lemma update_last_exchange repr config auth rem p log' pu rp :
  snd (run (update_catalog_task repr config auth p) rem)
  = (log' ++ [(pu, rp)])%list ->
  req_method pu = PUT ->
  fst (run (update_catalog_task repr config auth p) rem) = put_outcome rp.
Proof.
  intros L M.
  destruct (is_sys_id (up_task_id p)) eqn:S.
  - rewrite update_run_sys_id in * by assumption. cbv zeta in *. simpl in *.
    destruct log' as [|x [|y l]]; try discriminate.
    injection L as _ L. now rewrite L.
  - rewrite update_run_number in * by assumption. cbv zeta in *.
    set (g := update_number_request config auth (up_task_id p)) in *.
    destruct (reply_json (rem [] g)) as [data|e] eqn:Rg.
    + destruct (resolved_url_of repr config (up_task_id p) data) as [[r|url]|e];
        simpl in *.
      * destruct log' as [|x [|y l]]; try discriminate.
        injection L as L _. subst pu. discriminate.
      * destruct log' as [|x [|y [|z l]]]; try discriminate.
        injection L as _ _ L. now rewrite L.
      * destruct log' as [|x [|y l]]; try discriminate.
        injection L as L _. subst pu. discriminate.
    + destruct (reply_json_raised _ _ Rg) as [m ->]. simpl in *.
      destruct log' as [|x [|y l]]; try discriminate.
      injection L as L _. subst pu. discriminate.
Qed.

(** X14. When the PUT itself fails, on either path, the response is
    [success = False] with the message
    [Failed to update catalog task: <error>] and no identifiers. *)
Theorem failed_put_reported :
  forall py_repr config auth rem (p : UpdateCatalogTaskParams) log' pu rp msg,
    snd (run (update_catalog_task py_repr config auth p) rem)
    = (log' ++ [(pu, rp)])%list ->
    req_method pu = PUT ->
    failure_of rp = Some msg ->
    fst (run (update_catalog_task py_repr config auth p) rem)
    = Returned {| success := false;
                  message := "Failed to update catalog task: " ++ msg;
                  task_id := None; task_number := None |}.
Proof.
  intros repr config auth rem p log' pu rp msg L M F.
  rewrite (update_last_exchange repr config auth rem p log' pu rp L M).
  apply failure_of_reply_json in F. unfold put_outcome. now rewrite F.
Qed.

Lemma failed_put_reported_witness :
  fst (run (update_catalog_task repr_unused test_config test_auth
              test_update_params) put_refused_remote)
  = Returned {| success := false;
                message := "Failed to update catalog task: 403 Client Error: Forbidden";
                task_id := None; task_number := None |}.
Proof.
  eapply (failed_put_reported repr_unused test_config test_auth
            put_refused_remote test_update_params [_]);
    reflexivity.
Defined.

Lemma validate_opt_value o : validate_optional_str (opt_value o) = Returned o.
Proof. destruct o; reflexivity. Qed.

(** X15. A successful update reports the identifiers of the record in the
    reply to the PUT: [task_id] is its [sys_id] and [task_number] its
    [number], each [None] when the record lacks it, and both [None] when
    the reply has no [result] at all. *)
Theorem update_reports_reply_identifiers :
  forall py_repr config auth rem (p : UpdateCatalogTaskParams)
         log' pu rp body rec a b,
    snd (run (update_catalog_task py_repr config auth p) rem)
    = (log' ++ [(pu, rp)])%list ->
    req_method pu = PUT ->
    reply_json rp = Returned body ->
    py_get body "result" (PyDict []) = Returned (PyDict rec) ->
    field rec "sys_id" = opt_value a ->
    field rec "number" = opt_value b ->
    fst (run (update_catalog_task py_repr config auth p) rem)
    = Returned {| success := true;
                  message := "Catalog task updated successfully";
                  task_id := a; task_number := b |}.
Proof.
  intros repr config auth rem p log' pu rp body rec a b L M R G Ha Hb.
  eapply update_returns_on_record; try eassumption.
  - rewrite Ha. apply validate_opt_value.
  - rewrite Hb. apply validate_opt_value.
Qed.

Lemma update_reports_reply_identifiers_witness :
  fst (run (update_catalog_task repr_unused test_config test_auth
              test_update_params) test_update_remote)
  = Returned {| success := true;
                message := "Catalog task updated successfully";
                task_id := Some "task123";
                task_number := Some "SCTASK0001639213" |}.
Proof.
  eapply (update_reports_reply_identifiers repr_unused test_config test_auth
            test_update_remote test_update_params [_]);
    reflexivity.
Defined.

Lemma update_data_unpopulated p :
  unpopulated (up_state p) -> unpopulated (up_assigned_to p) ->
  unpopulated (up_assignment_group p) -> unpopulated (up_work_notes p) ->
  unpopulated (up_close_notes p) ->
  update_data p = [].
Proof.
  unfold unpopulated. intros H1 H2 H3 H4 H5.
  apply str_truthy_false in H1, H2, H3, H4, H5.
  unfold update_data. now rewrite H1, H2, H3, H4, H5.
Qed.

(** X16. An update that names no field is still sent: when all five
    parameters are [None] or empty and the identifier is sys_id-shaped,
    the handler makes its one call, a PUT to the record with the empty
    object as body. *)
Theorem empty_update_still_sent :
  forall py_repr config auth rem (p : UpdateCatalogTaskParams),
    sys_id_shaped (up_task_id p) ->
    unpopulated (up_state p) -> unpopulated (up_assigned_to p) ->
    unpopulated (up_assignment_group p) -> unpopulated (up_work_notes p) ->
    unpopulated (up_close_notes p) ->
    exists pu rp,
      snd (run (update_catalog_task py_repr config auth p) rem) = [(pu, rp)] /\
      req_method pu = PUT /\
      req_url pu = api_url config ++ "/table/sc_task/" ++ up_task_id p /\
      req_json pu = Some [].
Proof.
  intros repr config auth rem p Y H1 H2 H3 H4 H5.
  apply is_sys_id_shaped in Y.
  rewrite update_run_sys_id by assumption. cbv zeta. simpl.
  eexists _, _. split; [reflexivity|]. simpl.
  rewrite (update_data_unpopulated p H1 H2 H3 H4 H5). repeat split.
Qed.

Lemma empty_update_still_sent_witness :
  exists pu rp,
    snd (run (update_catalog_task repr_unused test_config test_auth
                empty_update_params) test_update_remote) = [(pu, rp)] /\
    req_method pu = PUT /\
    req_url pu = api_url test_config ++ "/table/sc_task/" ++ sample_sys_id /\
    req_json pu = Some [].
Proof.
  apply (empty_update_still_sent repr_unused test_config test_auth
           test_update_remote empty_update_params).
  - apply is_sys_id_shaped. reflexivity.
  - left; reflexivity.
  - right; reflexivity.
  - left; reflexivity.
  - left; reflexivity.
  - left; reflexivity.
Defined.

(** X17. After a resolution by number that finds a first row which is an
    object, the PUT goes to [/table/sc_task/<sys_id of that row>] when the
    [sys_id] is a string; when the row has no [sys_id], or a null one, the
    PUT is sent all the same, to [/table/sc_task/None]. *)
Theorem put_targets_resolved_row :
  forall py_repr config auth rem (p : UpdateCatalogTaskParams)
         g rg rest body row more,
    ~ sys_id_shaped (up_task_id p) ->
    snd (run (update_catalog_task py_repr config auth p) rem) = (g, rg) :: rest ->
    reply_json rg = Returned body ->
    py_get body "result" (PyList []) = Returned (PyList (PyDict row :: more)) ->
    exists pu rp,
      rest = [(pu, rp)] /\
      req_method pu = PUT /\
      (forall s, dict_get row "sys_id" = Some (PyStr s) ->
         req_url pu = api_url config ++ "/table/sc_task/" ++ s) /\
      (dict_get row "sys_id" = None \/ dict_get row "sys_id" = Some PyNone ->
         req_url pu = api_url config ++ "/table/sc_task/None").
Proof.
  intros repr config auth rem p g rg rest body row more N.
  apply is_sys_id_not_shaped in N.
  rewrite update_run_number by assumption. cbv zeta.
  set (g0 := update_number_request config auth (up_task_id p)).
  destruct (reply_json (rem [] g0)) as [data|e] eqn:R0.
  - unfold resolved_url_of.
    destruct (py_get data "result" (PyList [])) as [result|e] eqn:G0.
    + cbn [obind]. destruct (truthy result) eqn:T; simpl negb; cbv iota.
      * destruct (py_index0 result) as [first|e] eqn:I; cbn [obind].
        -- destruct (py_get first "sys_id" PyNone) as [sid|e] eqn:Sg; cbn [obind];
             simpl; intros L R G; injection L as <- <- <-;
             rewrite R0 in R; injection R as ->;
             rewrite G0 in G; injection G as ->;
             simpl in I; injection I as <-; simpl in Sg; [|discriminate].
           injection Sg as <-.
           eexists _, _. split; [reflexivity|]. split; [reflexivity|]. simpl.
           split.
           ++ intros s Hs. now rewrite Hs.
           ++ intros [Hs | Hs]; now rewrite Hs.
        -- simpl. intros L R G. injection L as <- <- <-.
           rewrite R0 in R. injection R as ->.
           rewrite G0 in G. injection G as ->. discriminate.
      * rewrite failed_response_eq. simpl. intros L R G. injection L as <- <- <-.
        rewrite R0 in R. injection R as ->.
        rewrite G0 in G. injection G as ->. discriminate.
    + simpl. intros L R G. injection L as <- <- <-.
      rewrite R0 in R. injection R as ->. congruence.
  - destruct (reply_json_raised _ _ R0) as [m ->]. simpl.
    intros L R G. injection L as <- <- <-. congruence.
Qed.

Lemma put_targets_resolved_row_witness :
  exists pu rp,
    tl (snd (run (update_catalog_task repr_unused test_config test_auth
                    test_update_params) row_without_sys_id_remote))
    = [(pu, rp)] /\
    req_method pu = PUT /\
    req_url pu = "https://test.service-now.com/api/now/table/sc_task/None".
Proof.
  assert (N : ~ sys_id_shaped (up_task_id test_update_params)).
  { intros [L _]. simpl in L. discriminate. }
  destruct (put_targets_resolved_row repr_unused test_config test_auth
              row_without_sys_id_remote test_update_params _ _ _ _
              [("number", PyStr "SCTASK0001639213")] [] N
              eq_refl eq_refl eq_refl) as (pu & rp & Hrest & M & _ & Hn).
  exists pu, rp. split; [exact Hrest|]. split; [exact M|].
  apply Hn. left. reflexivity.
Defined.

(** X18. The listing reports [success = False] only when it obtained no
    decoded body: whenever its result carries [success = False], the one
    call it made raised, or the status check of the response raised, or
    the body of the response was not JSON; the message is
    [Failed to list catalog tasks: <error>] with the text of that error and
    [tasks] is empty.  A reply that was received and decoded never yields a
    failure result. *)
Theorem listing_failure_means_no_body :
  forall config auth rem p d,
    fst (run (list_catalog_tasks config auth p) rem) = Returned (PyDict d) ->
    dict_get d "success" = Some (PyBool false) ->
    exists req rep msg,
      snd (run (list_catalog_tasks config auth p) rem) = [(req, rep)] /\
      (failure_of rep = Some msg \/
       exists r, rep = Responded r /\ http_error r = None /\
                 decode_error r = Some msg) /\
      (forall body, reply_json rep <> Returned body) /\
      d = [("success", PyBool false);
           ("message", PyStr ("Failed to list catalog tasks: " ++ msg));
           ("tasks", PyList [])].
Proof.
  intros config auth rem p d. rewrite list_run. cbv zeta. simpl.
  set (req := list_request config auth p). unfold list_outcome.
  destruct (reply_json (rem [] req)) as [data|e] eqn:R.
  - unfold list_tasks_of.
    destruct (py_get data "result" (PyList [])) as [result|]; [|discriminate].
    cbn [obind]. destruct (py_iter result) as [items|]; [|discriminate].
    cbn [obind]. destruct (for_each list_task items) as [tasks|]; [|discriminate].
    cbn [obind]. intros E. injection E as <-. simpl. discriminate.
  - destruct (reply_json_raised _ _ R) as [m ->].
    intros E _. injection E as <-.
    exists req, (rem [] req), m. split; [reflexivity|].
    split; [|split; [intros body; rewrite R; discriminate | reflexivity]].
    destruct (rem [] req) as [m'|r]; simpl in R.
    + left. injection R as ->. reflexivity.
    + destruct (http_error r) as [m'|] eqn:H.
      * left. injection R as ->. exact H.
      * right. exists r. split; [reflexivity|]. split; [exact H|].
        unfold response_json in R.
        destruct (decode_error r); [injection R as ->; reflexivity | discriminate].
Qed.

Lemma listing_failure_means_no_body_witness :
  exists req rep msg,
    snd (run (list_catalog_tasks test_config test_auth test_list_params)
             not_json_remote) = [(req, rep)] /\
    (failure_of rep = Some msg \/
     exists r, rep = Responded r /\ http_error r = None /\
               decode_error r = Some msg) /\
    fst (run (list_catalog_tasks test_config test_auth test_list_params)
             not_json_remote)
    = Returned (PyDict [("success", PyBool false);
                        ("message", PyStr ("Failed to list catalog tasks: " ++ msg));
                        ("tasks", PyList [])]).
Proof.
  destruct (listing_failure_means_no_body test_config test_auth
              not_json_remote test_list_params _ eq_refl eq_refl)
    as (req & rep & msg & L & F & _ & D).
  exists req, rep, msg. split; [exact L|]. split; [exact F|].
  apply (f_equal (fun x => Returned (A := value) (PyDict x))) in D.
  exact D.
Defined.
